(** * Record store of the boot-camp class list dashboard

    Shallow embedding of the table-manipulating parts of
    [src/employee_dashboard.py] (the original revision) and
    [src/employee_dashboard_fixed.py] (the later revision):
    [apply_filters_fast], the submit handler of [edit_employee_form] and the
    submit handler of [add_employee_form].

    The pandas DataFrame held in [st.session_state.employee_df] is modelled
    as an ordered list of column names together with a list of rows; a row is
    a finite map from column name to cell value.  The session table always
    carries a default RangeIndex (it is produced by [read_csv]/[read_excel],
    by [pd.concat(..., ignore_index=True)] or by [reset_index(drop=True)]),
    so the index label of a row is its position.  Cell values are modelled up
    to their pandas dtype: dtype coercions are not modelled. *)

From Stdlib Require Import String Ascii List ZArith Bool Btauto.
From stdpp Require Import base list gmap strings pretty.
Import ListNotations.
Open Scope string_scope.
Open Scope list_scope.

(** ** Data model *)

(** A cell: [None]/[NaN] (null), a string, a number, a timestamp, or a
    timezone-aware timestamp (what [pd.to_datetime] makes of a string that
    carries a UTC offset); [d] is the wall-clock time. *)
Inductive value :=
| VNull
| VStr (s : string)
| VNum (z : Z)
| VDate (d : Z)
| VDateTz (d : Z).

#[global] Instance value_eq_dec : EqDecision value.
Proof. solve_decision. Defined.

Abbreviation row := (gmap string value) (only parsing).

Record table := mk_table { columns : list string; rows : list row }.

(** Every row holds a value for exactly the columns of the table (I1). *)
Definition wf (t : table) : Prop :=
  Forall (fun r : row => forall c, is_Some (r !! c) <-> c ∈ columns t) (rows t).

(** The cell at row [i], column [c], if any. *)
Definition lookup_cell (t : table) (i : nat) (c : string) : option value :=
  rows t !! i ≫= (fun r : row => r !! c).

(** [c in df.columns] *)
Definition has_column (t : table) (c : string) : bool :=
  bool_decide (c ∈ columns t).

(** [df.loc[i, c]] (null when the row or the cell is missing). *)
Definition cell (t : table) (i : nat) (c : string) : value :=
  default VNull (rows t !! i ≫= (fun r : row => r !! c)).

(** [df[c] == v] on one cell: pandas' [==] is false on NaN. *)
Definition cell_eq (v w : value) : bool :=
  match v with
  | VNull => false
  | _ => bool_decide (v = w)
  end.

(** ** Filter engine: [apply_filters_fast] *)

(** [df[col].isin(values)] on one row. *)
Definition isin (r : row) (col : string) (values : list value) : bool :=
  match r !! col with
  | Some v => bool_decide (v ∈ values)
  | None => false
  end.

(** [if values and col in df.columns: mask &= df[col].isin(values)];
    an empty list (or [None]) is falsy and leaves the mask alone. *)
Definition mask_step (t : table) (col : string) (values : list value)
    (mask : row -> bool) : row -> bool :=
  if negb (bool_decide (values = [])) && has_column t col
  then fun r => mask r && isin r col values
  else mask.

Definition apply_filters_fast (t : table)
    (regions roles business_units employee_types : list value) : table :=
  let mask := fun _ : row => true in
  let mask := mask_step t "Region" regions mask in
  let mask := mask_step t "Role" roles mask in
  let mask := mask_step t "Business Unit" business_units mask in
  let mask := mask_step t "Employee Type" employee_types mask in
  mk_table (columns t) (List.filter mask (rows t)).

(** The filter engine as the spec describes it: the rows for which every
    (column, allowed values) predicate with a non-empty allowed list over a
    column of the table holds. *)
Definition pred_holds (t : table) (r : row) (p : string * list value) : Prop :=
  p.2 <> [] -> p.1 ∈ columns t -> exists v, r !! p.1 = Some v /\ v ∈ p.2.

#[global] Instance pred_holds_dec t r p : Decision (pred_holds t r p).
Proof.
  unfold pred_holds.
  destruct (decide (p.2 = [])) as [E|E]; [left; done|].
  destruct (decide (p.1 ∈ columns t)) as [C|C]; [|left; done].
  destruct (r !! p.1) as [v|] eqn:L.
  - destruct (decide (v ∈ p.2)) as [I|I].
    + left. intros _ _. eauto.
    + right. intros H. destruct (H E C) as (w & Hw & Iw). congruence.
  - right. intros H. destruct (H E C) as (w & Hw & _). congruence.
Defined.

Definition filter_spec (t : table) (preds : list (string * list value)) : table :=
  mk_table (columns t)
    (List.filter (fun r => bool_decide (Forall (pred_holds t r) preds)) (rows t)).

(** ** Python helpers used by the submit handlers *)

(** [str.isspace] on one ASCII character: space, \t \n \v \f \r and the
    separators \x1c..\x1f (non-ASCII whitespace is out of the model). *)
Definition is_py_space (a : ascii) : bool :=
  match nat_of_ascii a with
  | 32 | 9 | 10 | 11 | 12 | 13 | 28 | 29 | 30 | 31 => true
  | _ => false
  end.

(** [s.strip() == ''] *)
Fixpoint strip_is_empty (s : string) : bool :=
  match s with
  | EmptyString => true
  | String a s' => is_py_space a && strip_is_empty s'
  end.

(** [if value == '' or (isinstance(value, str) and value.strip() == ''):
        updated_employee[key] = None] *)
Definition normalize (v : value) : value :=
  match v with
  | VStr s => if strip_is_empty s then VNull else v
  | _ => v
  end.

(** A Python dict with insertion order. *)
Definition dict := list (string * value).

Fixpoint dict_get (d : dict) (k : string) : option value :=
  match d with
  | [] => None
  | (k', v) :: d' => if String.eqb k k' then Some v else dict_get d' k
  end.

(** [d[k] = v]: overwrite in place, or append a new key at the end. *)
Fixpoint dict_set (d : dict) (k : string) (v : value) : dict :=
  match d with
  | [] => [(k, v)]
  | (k', v') :: d' =>
      if String.eqb k k' then (k', v) :: d' else (k', v') :: dict_set d' k v
  end.

Definition dict_mem (d : dict) (k : string) : bool :=
  match dict_get d k with Some _ => true | None => false end.

(** [for key, value in d.items(): d[key] = normalize(value)] *)
Definition normalize_dict (d : dict) : dict :=
  map (fun kv => (kv.1, normalize kv.2)) d.

(** [selected_employee.get(c, None)] on a row (a pandas Series). *)
Definition row_get (r : row) (c : string) : value := default VNull (r !! c).

(** ** The employee form *)

(** A widget value: a text input / selectbox string, or a [date_input]. *)
Inductive field :=
| FText (s : string)
| FDate (d : option Z).

(** [x if x else None] for text, [pd.to_datetime(d) if d else None] for
    dates. *)
Definition field_value (f : field) : value :=
  match f with
  | FText s => if String.eqb s "" then VNull else VStr s
  | FDate (Some d) => VDate d
  | FDate None => VNull
  end.

(** The optional fields of the add and edit forms, in dict-literal order. *)
Definition form_fields : list string :=
  ["Personal"; "Hire Date"; "Business Title"; "Business Unit"; "Region";
   "Role"; "Location"; "Manager Name"; "Manager Email"; "Cost Center #";
   "Cost Center Name"; "Employee Type"; "Management VP"; "Management RVP";
   "Boot Camp In-Person"; "VILT"; "Transfer/Promo"; "SE Capstone";
   "Capstone Channel"; "BOOTCAMP_MOD"; "VILT_MOD"; "Duplicate Check";
   "Load OB_NEW_HIRES"; "NewHire Loaded?"; "Load CAPSTONE_AUDIT";
   "Capstone Loaded"].

(** Every column the forms edit. *)
Definition form_keys : list string :=
  "Preferred Name" :: "Work Email" :: form_fields.

Record form := mk_form {
  preferred_name : string;
  work_email : string;
  field_of : string -> field
}.

(** The dict literal [updated_employee] / [new_employee]. *)
Definition record_of_form (f : form) : dict :=
  ("Preferred Name", VStr (preferred_name f))
  :: ("Work Email", VStr (work_email f))
  :: map (fun k => (k, field_value (field_of f k))) form_fields.

(** [not preferred_name or not work_email] *)
Definition required_missing (f : form) : bool :=
  String.eqb (preferred_name f) "" || String.eqb (work_email f) "".

(** What the user typed into a text widget of the form, if it is one. *)
Definition submitted_text (f : form) (k : string) : option string :=
  if String.eqb k "Preferred Name" then Some (preferred_name f)
  else if String.eqb k "Work Email" then Some (work_email f)
  else if bool_decide (k ∈ form_fields) then
    match field_of f k with FText s => Some s | FDate _ => None end
  else None.

(** ** DataFrame operations *)

(** [df[c] = None] for a new column [c]. *)
Definition add_column (t : table) (c : string) : table :=
  mk_table (columns t ++ [c]) (map (fun r : row => <[c:=VNull]> r) (rows t)).

(** [for key in keys: if key not in df.columns: df[key] = None] *)
Definition add_missing_columns (keys : list string) (t : table) : table :=
  fold_left (fun t k => if has_column t k then t else add_column t k) keys t.

Definition null_row (cols : list string) : row :=
  fold_right (fun c (r : row) => <[c:=VNull]> r) ∅ cols.

Definition write_cells (assigns : list (string * value)) (r : row) : row :=
  fold_left (fun (r : row) cv => <[cv.1:=cv.2]> r) assigns r.

(** [for (c, v) in assigns: df.loc[i, c] = v].  On an existing label the
    cells of row [i] are overwritten; on a missing label the first
    assignment enlarges the frame by one all-null row labelled [i] and the
    following ones write into that row. *)
Definition loc_assign (t : table) (i : nat) (assigns : list (string * value)) : table :=
  match assigns with
  | [] => t
  | _ :: _ =>
      if decide (i < length (rows t))
      then mk_table (columns t) (alter (write_cells assigns) i (rows t))
      else mk_table (columns t) (rows t ++ [write_cells assigns (null_row (columns t))])
  end.

(** The positions selected by the mask [df['Work Email'] == e]. *)
Fixpoint email_matches_from (n : nat) (rs : list row) (e : value) : list nat :=
  match rs with
  | [] => []
  | r :: rs' =>
      if cell_eq (row_get r "Work Email") e
      then n :: email_matches_from (S n) rs' e
      else email_matches_from (S n) rs' e
  end.

Definition email_matches (rs : list row) (e : value) : list nat :=
  email_matches_from 0 rs e.

(** ** The edit form submit handler *)

Inductive error := ValidationError | NotFoundError | IntegrityError.

Inductive outcome :=
| Committed (t : table)
| Rejected (e : error).

(** [st.session_state.employee_df] after the handler: only a commit
    replaces it. *)
Definition session_after (t : table) (o : outcome) : table :=
  match o with
  | Committed t' => t'
  | Rejected _ => t
  end.

(** [for col in cols: if col not in d: d[col] = get(col)] *)
Definition carry_forward (cols : list string) (get : string -> value) (d : dict) : dict :=
  fold_left (fun d col => if dict_mem d col then d else dict_set d col (get col)) cols d.

(** [if new_count != original_count: st.error(...) else: commit] *)
Definition commit_checked (t t2 : table) : outcome :=
  if Nat.eqb (length (rows t2)) (length (rows t)) then Committed t2
  else Rejected IntegrityError.

(** Later revision: [selected_employee = df[df['Work Email'] ==
    selected_email].iloc[0]], taken when the form is rendered. *)
Definition select_employee (t : table) (selected_email : value) : option row :=
  match email_matches (rows t) selected_email with
  | i :: _ => rows t !! i
  | [] => None
  end.

(** Later revision, from [updated_employee = {...}] up to
    [updated_df = original_df.reset_index(drop=True)]; [None] is the
    [email_mask.sum() == 0] branch. *)
Definition edit_merge_fixed (t : table) (selected_email : value) (sel : row)
    (f : form) : option table :=
  let d := carry_forward (columns t) (row_get sel) (record_of_form f) in
  match email_matches (rows t) selected_email with
  | [] => None
  | actual_idx :: _ =>
      let d := carry_forward (columns t)
                 (fun c => default (cell t actual_idx c) (sel !! c)) d in
      let original_df := add_missing_columns (map fst d) t in
      let d := normalize_dict d in
      let assigns := omap (fun col => pair col <$> dict_get d col)
                          (columns original_df) in
      Some (loc_assign original_df actual_idx assigns)
  end.

Definition edit_submit_fixed (t : table) (selected_email : value) (sel : row)
    (f : form) : outcome :=
  if required_missing f then Rejected ValidationError
  else match edit_merge_fixed t selected_email sel f with
       | None => Rejected NotFoundError
       | Some t2 => commit_checked t t2
       end.

(** Original revision: [mask = df['Work Email'] == original_email]; on no
    match [actual_idx = selected_idx], else the first match. *)
Definition original_email (sel : row) : value :=
  default (VStr "") (sel !! "Work Email").

Definition target_orig (t : table) (selected_idx : nat) (sel : row) : nat :=
  match email_matches (rows t) (original_email sel) with
  | [] => selected_idx
  | i :: _ => i
  end.

Definition edit_merge_orig (t : table) (selected_idx : nat) (sel : row)
    (f : form) : table :=
  let d := carry_forward (columns t) (row_get sel) (record_of_form f) in
  let actual_idx := target_orig t selected_idx sel in
  let d := carry_forward (columns t)
             (fun c => default (cell t actual_idx c) (sel !! c)) d in
  let original_df := add_missing_columns (map fst d) t in
  let d := normalize_dict d in
  let row_data := map (fun col => (col, match dict_get d col with
                                         | Some v => v
                                         | None => cell original_df actual_idx col
                                         end))
                      (columns original_df) in
  loc_assign original_df actual_idx row_data.

Definition edit_submit_orig (t : table) (selected_idx : nat) (sel : row)
    (f : form) : outcome :=
  if required_missing f then Rejected ValidationError
  else commit_checked t (edit_merge_orig t selected_idx sel f).

(** ** The add form submit handler *)

(** [df.empty]: no rows or no columns. *)
Definition df_empty (t : table) : bool :=
  bool_decide (rows t = []) || bool_decide (columns t = []).

Definition row_of_dict (d : dict) : row :=
  fold_left (fun (r : row) kv => <[kv.1:=kv.2]> r) d ∅.

(** [pd.concat([a, b], ignore_index=True)]: columns aligned by name, cells
    a frame lacks filled with NaN. *)
Definition fill_nulls (cols : list string) (r : row) : row :=
  fold_left (fun (r : row) c => match r !! c with
                                | Some _ => r
                                | None => <[c:=VNull]> r
                                end) cols r.

Definition concat_tables (a b : table) : table :=
  let cols := columns a ++ List.filter (fun c => negb (has_column a c)) (columns b) in
  mk_table cols (map (fill_nulls cols) (rows a ++ rows b)).

(** [for col in all_cols: if col not in df.columns: df[col] = None;
         if col not in new_df.columns: new_df[col] = None];
    the loop body does not depend on the order in which the set
    [all_cols] is visited, so it is visited here as a list. *)
Definition union_columns (all_cols : list string) (a b : table) : table * table :=
  fold_left (fun ab col =>
               (if has_column ab.1 col then ab.1 else add_column ab.1 col,
                if has_column ab.2 col then ab.2 else add_column ab.2 col))
            all_cols (a, b).

Definition add_submit (t : table) (f : form) : outcome :=
  if required_missing f then Rejected ValidationError
  else
    let new_employee := record_of_form f in
    let new_df := mk_table (map fst new_employee) [row_of_dict new_employee] in
    if df_empty t then Committed new_df
    else
      let ab := union_columns (columns t ++ columns new_df) t new_df in
      Committed (concat_tables ab.1 ab.2).

(** The dict after both carry-forward loops. *)
Definition merged_dict (t : table) (sel : row) (idx : nat) (f : form) : dict :=
  carry_forward (columns t) (fun c => default (cell t idx c) (sel !! c))
    (carry_forward (columns t) (row_get sel) (record_of_form f)).

(** The value the form puts under column [c] ([None] when [c] is not a form
    column). *)
Definition form_value (f : form) (c : string) : option value :=
  dict_get (record_of_form f) c.

(** One run of the later revision's script that ends in an "Add Employee"
    submit.  The two tabs run in order, and tab1 begins with the guard
    [if ... st.session_state.employee_df.empty: ... st.stop()] (lines
    134-137): on an empty table the run stops before tab2 builds the form,
    so the submit is never handled ([RunStopped]); otherwise the add
    handler runs on the table.  (The original revision does not run at all:
    it fails to parse at lines 781-782.) *)
Inductive add_run_result :=
| RunStopped
| RunHandled (o : outcome).

Definition add_run (t : table) (f : form) : add_run_result :=
  if df_empty t then RunStopped else RunHandled (add_submit t f).

(** [st.session_state.employee_df] after a run. *)
Definition after_run (t : table) (r : add_run_result) : table :=
  match r with
  | RunStopped => t
  | RunHandled o => session_after t o
  end.

(** A sequence of runs, one submitted form each. *)
Fixpoint add_runs (t : table) (fs : list form) : table :=
  match fs with
  | [] => t
  | f :: fs' => add_runs (after_run t (add_run t f)) fs'
  end.

(** ** Sample tables *)

Definition sample_row (name email notes : string) : row :=
  <["Preferred Name":=VStr name]> (<["Work Email":=VStr email]>
    (<["Notes":=VStr notes]> ∅)).

(** Two employees; Ann's [Notes] cell holds a single space. *)
Definition sample_table : table :=
  mk_table ["Preferred Name"; "Work Email"; "Notes"]
    [sample_row "Ann" "a@x.com" " "; sample_row "Bob" "b@x.com" "n"].

(** Two rows sharing the identity value "a@x.com". *)
Definition duplicate_table : table :=
  mk_table ["Preferred Name"; "Work Email"; "Notes"]
    [sample_row "Ann" "a@x.com" "1"; sample_row "Ann B" "a@x.com" "2"].

(** Ann resubmitted with every optional field cleared. *)
Definition sample_form : form := mk_form "Ann" "a@x.com" (fun _ => FText "").

(** A selected employee whose e-mail no longer occurs in the table. *)
Definition stale_selection : row := sample_row "Zoe" "z@x.com" "".

(** The later revision on Bob with "Personal" typed as two spaces. *)
Definition blank_personal_form : form :=
  mk_form "Bob" "b@x.com"
    (fun k => if String.eqb k "Personal" then FText "  " else FText "").


(** ** Further dashboard code *)

(** *** pandas and Python helpers *)

(** [pd.notna(v)] *)
Definition notna (v : value) : bool :=
  match v with VNull => false | _ => true end.

(** [bool(v)].  A null cell is [None] (falsy) or [NaN] (truthy); its only
    use below, in [get_dropdown_options], gives the same options either
    way, as a null current value is never appended. *)
Definition py_truthy (v : value) : bool :=
  match v with
  | VNull => false
  | VStr s => negb (String.eqb s "")
  | VNum z => negb (Z.eqb z 0)
  | VDate _ | VDateTz _ => true
  end.

(** The cells of [df[c]], top to bottom. *)
Definition column_values (t : table) (c : string) : list value :=
  map (fun r : row => row_get r c) (rows t).

(** [pd.unique]: the distinct values in order of first appearance. *)
Fixpoint unique_from (seen : list value) (vs : list value) : list value :=
  match vs with
  | [] => []
  | v :: vs' =>
      if bool_decide (v ∈ seen) then unique_from seen vs'
      else v :: unique_from (v :: seen) vs'
  end.

Definition pd_unique (vs : list value) : list value := unique_from [] vs.

(** A stable insertion sort ([sorted] and [list.sort] are stable, so on a
    total preorder both give the same list). *)
Fixpoint insert_by {A} (leb : A -> A -> bool) (x : A) (l : list A) : list A :=
  match l with
  | [] => [x]
  | y :: l' => if leb x y then x :: l else y :: insert_by leb x l'
  end.

Definition sort_by {A} (leb : A -> A -> bool) (l : list A) : list A :=
  fold_right (insert_by leb) [] l.

(** Python compares two strings by code point (the byte order of their
    UTF-8 encodings), two numbers or two timestamps by value; comparing
    values of two different kinds raises [TypeError], and so does comparing
    a tz-naive with a tz-aware timestamp.  The tz-aware timestamps of one
    column share its offset, so their wall-clock order is their order. *)
Definition same_kind (v w : value) : bool :=
  match v, w with
  | VNull, VNull | VStr _, VStr _ | VNum _, VNum _ | VDate _, VDate _
  | VDateTz _, VDateTz _ => true
  | _, _ => false
  end.

Definition value_leb (v w : value) : bool :=
  match v, w with
  | VStr a, VStr b => String.leb a b
  | VNum a, VNum b => Z.leb a b
  | VDate a, VDate b => Z.leb a b
  | VDateTz a, VDateTz b => Z.leb a b
  | _, _ => true
  end.

(** [sorted(vs)]; [None] is the [TypeError] raised as soon as a sort has to
    compare values of two kinds, which it does when the list mixes kinds. *)
Definition py_sorted (vs : list value) : option (list value) :=
  match vs with
  | [] => Some []
  | v :: _ => if forallb (same_kind v) vs then Some (sort_by value_leb vs) else None
  end.

(** [options.index(x)] when [x in options]. *)
Fixpoint str_index (x : string) (l : list string) : option nat :=
  match l with
  | [] => None
  | y :: l' => if String.eqb x y then Some 0 else S <$> str_index x l'
  end.

(** [s.lower()] on ASCII letters (other characters are kept). *)
Definition py_lower_ascii (a : ascii) : ascii :=
  let n := nat_of_ascii a in
  if Nat.leb 65 n && Nat.leb n 90 then ascii_of_nat (n + 32) else a.

Fixpoint py_lower (s : string) : string :=
  match s with
  | EmptyString => EmptyString
  | String a s' => String (py_lower_ascii a) (py_lower s')
  end.

(** [s.lstrip()] and [s.rstrip()] (ASCII whitespace, as [is_py_space]). *)
Fixpoint py_lstrip (s : string) : string :=
  match s with
  | EmptyString => EmptyString
  | String a s' => if is_py_space a then py_lstrip s' else s
  end.

Fixpoint py_rstrip (s : string) : string :=
  match s with
  | EmptyString => EmptyString
  | String a s' =>
      let r := py_rstrip s' in
      if is_py_space a && String.eqb r "" then "" else String a r
  end.

Definition py_strip (s : string) : string := py_rstrip (py_lstrip s).

(** *** [compute_metrics] *)

(** [df['Hire Date'].notna() & (df['Hire Date'] >= cutoff_date)] on one
    cell: a null compares false; comparing a string, a number or a
    tz-aware timestamp with the tz-naive cutoff raises [TypeError]
    ([None]). *)
Definition recent_cell (cutoff : Z) (v : value) : option bool :=
  match v with
  | VNull => Some false
  | VDate d => Some (Z.leb cutoff d)
  | _ => None
  end.

(** [.sum()] of that mask. *)
Fixpoint count_recent (cutoff : Z) (vs : list value) : option nat :=
  match vs with
  | [] => Some 0
  | v :: vs' =>
      match recent_cell cutoff v, count_recent cutoff vs' with
      | Some b, Some n => Some (if b then S n else n)
      | _, _ => None
      end
  end.

(** [recent_hires], with [cutoff] standing for
    [pd.Timestamp.now() - pd.Timedelta(days=90)]. *)
Definition recent_hires (t : table) (cutoff : Z) : option nat :=
  if has_column t "Hire Date" then count_recent cutoff (column_values t "Hire Date")
  else Some 0.

(** Later revision: [data = df[df[c].notna()]; if len(data) > 0:
    data[c].nunique()]. *)
Definition class_count (t : table) (c : string) : nat :=
  if has_column t c then
    let data := List.filter notna (column_values t c) in
    if Nat.ltb 0 (length data) then length (pd_unique data) else 0
  else 0.

(** Original revision: [df[c].notna().sum()]. *)
Definition completed_count (t : table) (c : string) : nat :=
  if has_column t c then length (List.filter notna (column_values t c)) else 0.

Definition compute_metrics_fixed (t : table) (cutoff : Z) : option (nat * nat * nat * nat) :=
  match recent_hires t cutoff with
  | None => None
  | Some recent =>
      Some (length (rows t), recent, class_count t "Boot Camp In-Person", class_count t "VILT")
  end.

Definition compute_metrics_orig (t : table) (cutoff : Z) : option (nat * nat * nat * nat) :=
  match recent_hires t cutoff with
  | None => None
  | Some recent =>
      Some (length (rows t), recent, completed_count t "Boot Camp In-Person",
            completed_count t "VILT")
  end.

(** *** [process_uploaded_file] *)

(** [name.split('.')[-1]] *)
Fixpoint last_segment_from (cur s : string) : string :=
  match s with
  | EmptyString => cur
  | String a s' =>
      if Ascii.eqb a "."%char then last_segment_from EmptyString s'
      else last_segment_from (String.append cur (String a EmptyString)) s'
  end.

(** [uploaded_file.name.split('.')[-1].lower()] *)
Definition file_extension (name : string) : string :=
  py_lower (last_segment_from EmptyString name).


Inductive reader := ReadExcelOpenpyxl | ReadExcelXlrd | ReadCsv.

Definition reader_of (ext : string) : option reader :=
  if String.eqb ext "xlsx" then Some ReadExcelOpenpyxl
  else if String.eqb ext "xls" then Some ReadExcelXlrd
  else if String.eqb ext "csv" then Some ReadCsv
  else None.

(** [df.columns = df.columns.str.strip()]: a cell keeps its value under the
    stripped column name.  Exact when the stripped names stay distinct
    (pandas would otherwise keep duplicate labels, which a row map cannot
    hold). *)
Definition rename_row (cols : list string) (r : row) : row :=
  fold_left (fun (acc : row) c => match r !! c with
                                  | Some v => <[py_strip c:=v]> acc
                                  | None => acc
                                  end) cols ∅.

Definition strip_columns (t : table) : table :=
  mk_table (map py_strip (columns t)) (map (rename_row (columns t)) (rows t)).

(** What [pd.to_datetime] makes of one string or number: a tz-naive
    timestamp, or a tz-aware one when the string carries a UTC offset. *)
Inductive parsed_ts :=
| Naive (d : Z)
| Aware (d : Z).

(** [pd.to_datetime(v, errors='coerce')] on one cell; [to_dt] parses a
    string or a number ([None] when it cannot).  The cells are converted one
    by one: a column whose strings mix UTC offsets, or mix strings with and
    without an offset, is outside this model (pandas then builds an object
    column or raises, depending on its version). *)
Definition coerce_date (to_dt : value -> option parsed_ts) (v : value) : value :=
  match v with
  | VNull => VNull
  | VDate d => VDate d
  | VDateTz d => VDateTz d
  | _ => match to_dt v with
         | Some (Naive d) => VDate d
         | Some (Aware d) => VDateTz d
         | None => VNull
         end
  end.

(** [df[c] = pd.to_datetime(df[c], errors='coerce')] *)
Definition coerce_column (to_dt : value -> option parsed_ts) (c : string) (t : table) : table :=
  mk_table (columns t)
    (map (fun r : row => <[c:=coerce_date to_dt (row_get r c)]> r) (rows t)).

(** [process_uploaded_file]: [read] is the reader call ([inr] carries
    [str(e)] of the exception it raises); [date_cols] are the columns passed
    through [pd.to_datetime]. *)
Definition process_uploaded_file (date_cols : list string) (read : reader -> table + string)
    (to_dt : value -> option parsed_ts) (name : string) : table + string :=
  let ext := file_extension name in
  match reader_of ext with
  | None =>
      inr (String.append "Unsupported file type: "
             (String.append ext ". Please use .xlsx, .xls, or .csv"))
  | Some rd =>
      match read rd with
      | inr e => inr e
      | inl df =>
          let df := strip_columns df in
          inl (fold_left (fun df c => if has_column df c then coerce_column to_dt c df else df)
                 date_cols df)
      end
  end.

Definition date_columns_fixed : list string := ["Hire Date"; "Course Completion"].

Definition date_columns_orig : list string := ["Hire Date"].

(** *** Sidebar filters at their default selection *)

(** [sorted([r for r in df[col].dropna().unique() if pd.notna(r)])] when
    [col in df.columns and len(df) > 0]; no widget (no selection) otherwise. *)
Definition filter_options (t : table) (col : string) : option (list value) :=
  if has_column t col && Nat.ltb 0 (length (rows t))
  then py_sorted (pd_unique (List.filter notna (column_values t col)))
  else Some [].

(** [default=values if len(values) <= 20 else values[:20]] for Region, Role
    and Business Unit; [default=employee_types] for Employee Type. *)
Definition default_selection (capped : bool) (opts : list value) : list value :=
  if capped && negb (Nat.leb (length opts) 20) then take 20 opts else opts.

(** [filtered_df] when no sidebar filter has been touched; [None] when
    building the options raises. *)
Definition dashboard_filtered (t : table) : option table :=
  match filter_options t "Region", filter_options t "Role",
        filter_options t "Business Unit", filter_options t "Employee Type" with
  | Some regions, Some roles, Some business_units, Some employee_types =>
      Some (apply_filters_fast t (default_selection true regions)
              (default_selection true roles) (default_selection true business_units)
              (default_selection false employee_types))
  | _, _, _, _ => None
  end.

(** The sidebar filter columns. *)
Definition filter_columns : list string := ["Region"; "Role"; "Business Unit"; "Employee Type"].

(** *** The edit section of the later revision *)

(** [employees_with_email = df[df['Work Email'].notna()]]: the e-mails the
    employee selectbox can return as [selected_email]. *)
Definition edit_candidates (t : table) : list value :=
  if has_column t "Work Email"
  then map (fun r : row => row_get r "Work Email")
         (List.filter (fun r : row => notna (row_get r "Work Email")) (rows t))
  else [].

(** [st.selectbox(label, options, index=i)] returns [options[i]] (and
    raises on an index out of range). *)
Definition selectbox (options : list string) (i : nat) : option string := options !! i.

Definition employee_type_options : list string :=
  [""; "Full Time"; "Part Time"; "Contract"; "Intern"].

Definition yes_no_options : list string := [""; "Yes"; "No"].

(** The widget each form column is edited with. *)
Inductive widget := WText | WDate | WEmployeeType | WYesNo | WDropdown.

Definition widget_kind (k : string) : widget :=
  if String.eqb k "Personal" then WText
  else if String.eqb k "Hire Date" || String.eqb k "SE Capstone" then WDate
  else if String.eqb k "Employee Type" then WEmployeeType
  else if String.eqb k "Load OB_NEW_HIRES" || String.eqb k "NewHire Loaded?"
          || String.eqb k "Load CAPSTONE_AUDIT" || String.eqb k "Capstone Loaded"
  then WYesNo
  else WDropdown.

(** The columns edited with [get_dropdown_options]/[get_dropdown_index]. *)
Definition dropdown_fields : list string :=
  ["Business Title"; "Business Unit"; "Region"; "Role"; "Location";
   "Manager Name"; "Manager Email"; "Cost Center #"; "Cost Center Name";
   "Management VP"; "Management RVP"; "Boot Camp In-Person"; "VILT";
   "Transfer/Promo"; "Capstone Channel"; "BOOTCAMP_MOD"; "VILT_MOD";
   "Duplicate Check"].

Definition yes_no_fields : list string :=
  ["Load OB_NEW_HIRES"; "NewHire Loaded?"; "Load CAPSTONE_AUDIT"; "Capstone Loaded"].

(** [str(v)] of a number or a timestamp, and [astype(str)] of a null cell,
    depend on the column dtype; they are parameters of what follows. *)
Section Python_str.

Variable num_str : Z -> string.
Variable date_str : bool -> Z -> string.
Variable null_str : string.

(** [str(v)]; [date_str tz d] is the text of a timestamp, tz-aware when
    [tz] (it then ends with the offset). *)
Definition py_str (v : value) : string :=
  match v with
  | VNull => null_str
  | VStr s => s
  | VNum z => num_str z
  | VDate d => date_str false d
  | VDateTz d => date_str true d
  end.

(** [v in options] on a list of strings: only a string equals one. *)
Definition value_in_strings (v : value) (options : list string) : bool :=
  match v with VStr s => bool_decide (s ∈ options) | _ => false end.

Definition get_dropdown_options (t : table) (column_name : string) (current_value : value)
    : list string :=
  if negb (has_column t column_name) then [""]
  else
    let options :=
      "" :: sort_by String.leb
              (List.filter (fun s => negb (strip_is_empty s))
                 (map py_str (pd_unique (List.filter notna (column_values t column_name))))) in
    if py_truthy current_value && negb (value_in_strings current_value options) then
      let current_str := if notna current_value then py_str current_value else "" in
      if String.eqb current_str "" then options else options ++ [current_str]
    else options.

Definition get_dropdown_index (options : list string) (current_value : value) : nat :=
  if negb (notna current_value) then 0
  else if bool_decide (current_value = VStr "") then 0
  else match str_index (py_str current_value) options with
       | Some i => i
       | None => 0
       end.

(** [str(v) if pd.notna(v) else ""]: the initial text of a text input. *)
Definition text_default (v : value) : string := if notna v then py_str v else "".

(** The selectbox value of a dropdown column before the user touches it
    (the index is always in range, so the default [""] is never used). *)
Definition dropdown_value (t : table) (c : string) (v : value) : string :=
  let options := get_dropdown_options t c v in
  default "" (selectbox options (get_dropdown_index options v)).

(** [options.index(cur) if cur in options else 0] with
    [cur = str(v) if pd.notna(v) else ""], then the selectbox value. *)
Definition fixed_select (options : list string) (v : value) : string :=
  let i := match str_index (text_default v) options with Some i => i | None => 0 end in
  default "" (selectbox options i).

(** [date_of d] is [pd.to_datetime(ts.date())] for the timestamp [d]
    ([ts.date()] of a tz-aware timestamp is its wall-clock date);
    [to_dt v] is [pd.to_datetime(v)] of a non-timestamp ([None] when it
    raises, which the form turns into an empty date input). *)
Variable date_of : Z -> Z.
Variable to_dt : value -> option Z.

Definition date_widget (v : value) : option Z :=
  match v with
  | VNull => None
  | VDate d | VDateTz d => Some (date_of d)
  | _ => option_map date_of (to_dt v)
  end.

(** The value each widget of the edit form holds before the user touches
    it, for the selected employee [sel]. *)
Definition initial_field (t : table) (sel : row) (k : string) : field :=
  let v := row_get sel k in
  match widget_kind k with
  | WText => FText (text_default v)
  | WDate => FDate (date_widget v)
  | WEmployeeType => FText (fixed_select employee_type_options v)
  | WYesNo => FText (fixed_select yes_no_options v)
  | WDropdown => FText (dropdown_value t k v)
  end.

Definition initial_form (t : table) (sel : row) : form :=
  mk_form (text_default (row_get sel "Preferred Name"))
          (text_default (row_get sel "Work Email"))
          (initial_field t sel).

(** *** The Employee Data table *)

Definition search_columns : list string :=
  ["Preferred Name"; "Work Email"; "Personal"; "Role"; "Region"; "Business Unit";
   "Business Title"; "Manager Name"].

(** [contains term s] is [s.str.contains(term, case=False, na=False)] on
    one string (a regular-expression search). *)
Variable contains : string -> string -> bool.

(** [if search_term and search_term.strip(): ... display_df[search_mask]] *)
Definition search_filter (t : table) (search_term : string) : table :=
  if strip_is_empty search_term then t
  else mk_table (columns t)
         (List.filter (fun r : row =>
                         existsb (fun c => has_column t c
                                           && contains search_term (py_str (row_get r c)))
                           search_columns)
            (rows t)).

(** [display_df]: the session table, optionally filtered by the sidebar
    selection, then searched. *)
Definition employee_data_view (t : table) (apply_filters_to_table : bool)
    (regions roles business_units employee_types : list value) (search_term : string) : table :=
  if Nat.eqb (length (rows t)) 0 then t
  else
    let display := if apply_filters_to_table
                   then apply_filters_fast t regions roles business_units employee_types
                   else t in
    search_filter display search_term.

End Python_str.

(** Two employees, the second without a region. *)
Definition filter_table : table :=
  mk_table ["Region"; "Role"]
    [{["Region" := VStr "West"; "Role" := VStr "SE"]};
     {["Region" := VNull; "Role" := VStr "AE"]}].

(** Twenty-one employees in twenty-one regions "A" to "U". *)
Definition region_table : table :=
  mk_table ["Region"]
    (map (fun n => {["Region" := VStr (String (ascii_of_nat (65 + n)) EmptyString)]} : row)
       (seq 0 21)).

(** Two employees whose cost centre is a number, the first one 0. *)
Definition cost_center_table : table :=
  mk_table ["Preferred Name"; "Work Email"; "Cost Center #"; "Employee Type"; "Capstone Loaded"]
    [{["Preferred Name" := VStr "Ann"; "Work Email" := VStr "a@x.com";
       "Cost Center #" := VNum 0; "Employee Type" := VStr "Full-time";
       "Capstone Loaded" := VStr "Yes"]};
     {["Preferred Name" := VStr "Bob"; "Work Email" := VStr "b@x.com";
       "Cost Center #" := VNum 42; "Employee Type" := VStr "Contract";
       "Capstone Loaded" := VNull]}].

Definition cost_center_row : row :=
  {["Preferred Name" := VStr "Ann"; "Work Email" := VStr "a@x.com";
    "Cost Center #" := VNum 0; "Employee Type" := VStr "Full-time";
    "Capstone Loaded" := VStr "Yes"]}.

(** A table with none of the searched columns. *)
Definition type_only_table : table :=
  mk_table ["Employee Type"] [{["Employee Type" := VStr "Intern"]}].




(** An upload whose hire date carries a UTC offset. *)
Definition upload_tz_reader (_ : reader) : table + string :=
  inl (mk_table ["Hire Date"] [{["Hire Date" := VStr "2024-01-05 00:00:00+01:00"]}]).

Definition upload_tz_to_dt (v : value) : option parsed_ts :=
  match v with VStr "2024-01-05 00:00:00+01:00" => Some (Aware 19727%Z) | _ => None end.

Definition upload_tz_result : table :=
  match process_uploaded_file date_columns_fixed upload_tz_reader upload_tz_to_dt "staff.csv" with
  | inl t => t
  | inr _ => mk_table [] []
  end.

(** ** Lemmas about the dict helpers *)

(** Close a goal whose two sides differ only in list-membership tests. *)
Ltac bool_decide_cases :=
  repeat case_bool_decide; try reflexivity;
  exfalso; repeat rewrite ?elem_of_cons, ?elem_of_app, ?elem_of_nil in *;
  naive_solver.

Lemma dict_get_set (d : dict) k v c :
  dict_get (dict_set d k v) c = if String.eqb c k then Some v else dict_get d c.
Proof.
  induction d as [|[k' v'] d IH]; simpl.
  - destruct (String.eqb c k); reflexivity.
  - destruct (String.eqb k k') eqn:E1; simpl.
    + apply String.eqb_eq in E1; subst k'.
      destruct (String.eqb c k); reflexivity.
    + rewrite IH. destruct (String.eqb c k') eqn:E2; [|reflexivity].
      apply String.eqb_eq in E2; subst c.
      destruct (String.eqb k' k) eqn:E3; [|reflexivity].
      apply String.eqb_eq in E3; subst. rewrite String.eqb_refl in E1. discriminate.
Qed.

Lemma dict_get_carry_forward (cols : list string) get (d : dict) c :
  dict_get (carry_forward cols get d) c =
  match dict_get d c with
  | Some v => Some v
  | None => if bool_decide (c ∈ cols) then Some (get c) else None
  end.
Proof.
  unfold carry_forward. revert d.
  induction cols as [|col cols IH]; intros d; cbn [fold_left].
  - destruct (dict_get d c); [reflexivity|].
    rewrite bool_decide_eq_false_2; [reflexivity|apply not_elem_of_nil].
  - rewrite IH. unfold dict_mem.
    destruct (dict_get d col) as [w|] eqn:Ecol.
    + destruct (dict_get d c) as [v|] eqn:Ec; [reflexivity|].
      destruct (String.eqb_spec c col) as [->|Hne]; [congruence|].
      bool_decide_cases.
    + rewrite dict_get_set.
      destruct (String.eqb_spec c col) as [->|Hne].
      * rewrite Ecol. rewrite bool_decide_eq_true_2; [reflexivity|]. left.
      * destruct (dict_get d c); [reflexivity|].
        bool_decide_cases.
Qed.

Lemma dict_get_normalize (d : dict) c :
  dict_get (normalize_dict d) c = normalize <$> dict_get d c.
Proof.
  induction d as [|[k v] d IH]; simpl; [reflexivity|].
  destruct (String.eqb c k); [reflexivity|exact IH].
Qed.

Lemma dict_get_map (l : list string) (h : string -> value) c :
  dict_get (map (fun k => (k, h k)) l) c =
  if bool_decide (c ∈ l) then Some (h c) else None.
Proof.
  induction l as [|k l IH]; cbn [map dict_get].
  - rewrite bool_decide_eq_false_2; [reflexivity|apply not_elem_of_nil].
  - destruct (String.eqb_spec c k) as [->|Hne].
    + rewrite bool_decide_eq_true_2; [reflexivity|]. left.
    + rewrite IH. bool_decide_cases.
Qed.

Lemma elem_of_keys_dict_get (d : dict) c :
  c ∈ map fst d <-> is_Some (dict_get d c).
Proof.
  induction d as [|[k v] d IH]; simpl.
  - split; [intros H; apply not_elem_of_nil in H; done|intros [? H]; discriminate].
  - rewrite elem_of_cons, IH.
    destruct (String.eqb_spec c k) as [->|Hne]; naive_solver.
Qed.

(** ** Lemmas about the email mask *)

Lemma email_matches_from_spec n (rs : list row) e i :
  i ∈ email_matches_from n rs e <->
  n <= i /\ exists r, rs !! (i - n) = Some r /\ cell_eq (row_get r "Work Email") e = true.
Proof.
  revert n. induction rs as [|r rs IH]; intros n; simpl.
  - split; [intros H; apply not_elem_of_nil in H; done|].
    intros (_ & r & H & _). rewrite lookup_nil in H. discriminate.
  - assert (Hstep : (n <= i /\ exists r', (r :: rs) !! (i - n) = Some r' /\
                       cell_eq (row_get r' "Work Email") e = true) <->
                    (i = n /\ cell_eq (row_get r "Work Email") e = true) \/
                    (S n <= i /\ exists r', rs !! (i - S n) = Some r' /\
                       cell_eq (row_get r' "Work Email") e = true)).
    { split.
      - intros (Hle & r' & Hl & Hc).
        destruct (decide (i = n)) as [->|Hne].
        + left. rewrite Nat.sub_diag in Hl. simpl in Hl. injection Hl as ->. done.
        + right. split; [lia|]. exists r'. split; [|done].
          replace (i - n) with (S (i - S n)) in Hl by lia. exact Hl.
      - intros [[-> Hc]|(Hle & r' & Hl & Hc)].
        + split; [lia|]. exists r. rewrite Nat.sub_diag. done.
        + split; [lia|]. exists r'. split; [|done].
          replace (i - n) with (S (i - S n)) by lia. exact Hl. }
    rewrite Hstep.
    destruct (cell_eq (row_get r "Work Email") e) eqn:Ec.
    + rewrite elem_of_cons, IH. naive_solver.
    + rewrite IH. naive_solver.
Qed.

Lemma email_matches_spec (rs : list row) e i :
  i ∈ email_matches rs e <->
  exists r, rs !! i = Some r /\ cell_eq (row_get r "Work Email") e = true.
Proof.
  unfold email_matches. rewrite email_matches_from_spec.
  rewrite Nat.sub_0_r. naive_solver lia.
Qed.

Lemma email_matches_head_lt (rs : list row) e i rest :
  email_matches rs e = i :: rest -> i < length rs.
Proof.
  intros H. assert (Hi : i ∈ email_matches rs e) by (rewrite H; left).
  apply email_matches_spec in Hi as (r & Hr & _).
  by apply lookup_lt_Some in Hr.
Qed.

Lemma email_matches_from_sorted n (rs : list row) e i rest :
  email_matches_from n rs e = i :: rest -> Forall (fun j => i < j) rest.
Proof.
  revert n i rest. induction rs as [|r rs IH]; intros n i rest H; simpl in H.
  - discriminate.
  - assert (Hge : forall m j, j ∈ email_matches_from m rs e -> m <= j).
    { intros m j Hj. apply email_matches_from_spec in Hj. lia. }
    destruct (cell_eq (row_get r "Work Email") e).
    + injection H as <- <-. apply Forall_forall. intros j Hj.
      apply Hge in Hj. lia.
    + eapply IH. exact H.
Qed.

(** The first index of the mask is the earliest matching row. *)
Lemma email_matches_first (rs : list row) e i rest j :
  email_matches rs e = i :: rest -> j ∈ rest -> i < j.
Proof.
  intros H Hj. apply email_matches_from_sorted in H.
  rewrite Forall_forall in H. by apply H.
Qed.

(** ** Lemmas about the DataFrame operations *)

Lemma lookup_map_list {A B} (h : A -> B) (l : list A) j :
  map h l !! j = h <$> l !! j.
Proof.
  revert j. induction l as [|x l IH]; intros [|j]; simpl; auto.
Qed.

Lemma add_missing_columns_length (K : list string) t :
  length (rows (add_missing_columns K t)) = length (rows t).
Proof.
  revert t. induction K as [|k K IH]; intros t; simpl; [reflexivity|].
  rewrite IH. destruct (has_column t k); simpl; [reflexivity|].
  apply length_map.
Qed.

Lemma add_missing_columns_columns (K : list string) t c :
  c ∈ columns (add_missing_columns K t) <-> c ∈ columns t \/ c ∈ K.
Proof.
  revert t. induction K as [|k K IH]; intros t; simpl.
  - rewrite elem_of_nil. naive_solver.
  - rewrite IH. unfold has_column. case_bool_decide as Hk; simpl.
    + rewrite elem_of_cons. naive_solver.
    + rewrite elem_of_app, !elem_of_cons, elem_of_nil. naive_solver.
Qed.

(** The rows of [add_missing_columns]: the new columns are null, the other
    cells are untouched. *)
Lemma add_missing_columns_rows (K : list string) t j r :
  rows t !! j = Some r ->
  exists r', rows (add_missing_columns K t) !! j = Some r' /\
    forall c, r' !! c = if bool_decide (c ∈ K /\ c ∉ columns t) then Some VNull
                        else r !! c.
Proof.
  revert t r. induction K as [|k K IH]; intros t r Hr; cbn [add_missing_columns fold_left].
  - exists r. split; [exact Hr|]. intros c.
    rewrite bool_decide_eq_false_2; [reflexivity|]. rewrite elem_of_nil. naive_solver.
  - unfold has_column. case_bool_decide as Hk.
    + destruct (IH t r Hr) as (r' & Hr' & Hc). exists r'. split; [exact Hr'|].
      intros c. rewrite Hc.
      destruct (decide (c = k)) as [->|Hck]; bool_decide_cases.
    + assert (Hr2 : rows (add_column t k) !! j = Some (<[k:=VNull]> r)).
      { unfold add_column. simpl. by rewrite lookup_map_list, Hr. }
      destruct (IH _ _ Hr2) as (r' & Hr' & Hc). exists r'. split; [exact Hr'|].
      intros c. rewrite Hc. unfold add_column. simpl.
      destruct (decide (c = k)) as [->|Hck].
      * rewrite lookup_insert_eq. bool_decide_cases.
      * rewrite lookup_insert_ne by congruence. bool_decide_cases.
Qed.

Lemma write_cells_omap (cols : list string) (g : string -> option value) (r : row) c :
  write_cells (omap (fun col => pair col <$> g col) cols) r !! c =
  match (if bool_decide (c ∈ cols) then g c else None) with
  | Some v => Some v
  | None => r !! c
  end.
Proof.
  unfold write_cells. revert r.
  induction cols as [|col cols IH]; intros r; cbn [omap list_omap].
  - rewrite bool_decide_eq_false_2; [reflexivity|apply not_elem_of_nil].
  - destruct (g col) as [v|] eqn:Eg; cbn [fmap option_fmap option_map fold_left fst snd].
    + rewrite IH. destruct (decide (c = col)) as [->|Hne].
      * rewrite lookup_insert_eq, Eg.
        rewrite (bool_decide_eq_true_2 (col ∈ col :: cols)) by left.
        destruct (bool_decide (col ∈ cols)); reflexivity.
      * rewrite lookup_insert_ne by congruence. bool_decide_cases.
    + rewrite IH. destruct (decide (c = col)) as [->|Hne].
      * rewrite (bool_decide_eq_true_2 (col ∈ col :: cols)) by left. rewrite Eg.
        destruct (bool_decide (col ∈ cols)); reflexivity.
      * bool_decide_cases.
Qed.

Lemma write_cells_map (cols : list string) (h : string -> value) (r : row) c :
  write_cells (map (fun col => (col, h col)) cols) r !! c =
  if bool_decide (c ∈ cols) then Some (h c) else r !! c.
Proof.
  unfold write_cells. revert r.
  induction cols as [|col cols IH]; intros r; cbn [map fold_left fst snd].
  - rewrite bool_decide_eq_false_2; [reflexivity|apply not_elem_of_nil].
  - rewrite IH. destruct (decide (c = col)) as [->|Hne].
    + rewrite lookup_insert_eq. bool_decide_cases.
    + rewrite lookup_insert_ne by congruence. bool_decide_cases.
Qed.

Lemma loc_assign_in_range t i (assigns : list (string * value)) :
  i < length (rows t) ->
  loc_assign t i assigns = mk_table (columns t) (alter (write_cells assigns) i (rows t)).
Proof.
  intros Hi. unfold loc_assign. destruct assigns as [|a assigns].
  - rewrite list_alter_id; [by destruct t|]. intros x. reflexivity.
  - by rewrite decide_True.
Qed.

(** ** Filter engine lemmas *)

Lemma mask_step_spec t col (vs : list value) (m : row -> bool) (r : row) :
  mask_step t col vs m r = m r && bool_decide (pred_holds t r (col, vs)).
Proof.
  unfold mask_step, has_column, isin.
  destruct (decide (vs = [])) as [->|Hvs].
  - rewrite (bool_decide_eq_true_2 ([] = [])) by done. cbn [negb andb].
    rewrite (bool_decide_eq_true_2 (pred_holds _ _ _)); [by rewrite andb_true_r|].
    intros H. done.
  - rewrite (bool_decide_eq_false_2 (vs = [])) by done. cbn [negb andb].
    case_bool_decide as Hc.
    + destruct (r !! col) as [v|] eqn:Er.
      * case_bool_decide as Hv; case_bool_decide as Hp; try reflexivity; exfalso;
          unfold pred_holds in *; simpl in *.
        all: try (apply Hp; intros _ _; exists v; done).
        all: destruct (Hp Hvs Hc) as (w & Hw & Iw); rewrite Er in Hw;
          injection Hw as <-; done.
      * case_bool_decide as Hp; [|by rewrite andb_false_r].
        destruct (Hp Hvs Hc) as (w & Hw & _). simpl in Hw. congruence.
    + rewrite bool_decide_eq_true_2; [by rewrite andb_true_r|].
      intros _ Hc'. done.
Qed.

Lemma bool_decide_Forall_cons {A} (P : A -> Prop) `{forall x, Decision (P x)} x l :
  bool_decide (Forall P (x :: l)) = bool_decide (P x) && bool_decide (Forall P l).
Proof.
  case_bool_decide as H1; case_bool_decide as H2; case_bool_decide as H3;
    rewrite ?Forall_cons in *; naive_solver.
Qed.

(** ** Edit handler lemmas *)

Lemma form_value_keys f c : is_Some (form_value f c) <-> c ∈ form_keys.
Proof.
  unfold form_value. rewrite <- elem_of_keys_dict_get. reflexivity.
Qed.

Lemma merged_dict_get t sel idx f c :
  dict_get (merged_dict t sel idx f) c =
  match form_value f c with
  | Some v => Some v
  | None => if bool_decide (c ∈ columns t) then Some (row_get sel c) else None
  end.
Proof.
  unfold merged_dict, form_value. rewrite !dict_get_carry_forward.
  destruct (dict_get (record_of_form f) c); [reflexivity|].
  case_bool_decide; reflexivity.
Qed.

Lemma merged_dict_keys t sel idx f c :
  c ∈ map fst (merged_dict t sel idx f) <-> c ∈ form_keys \/ c ∈ columns t.
Proof.
  rewrite elem_of_keys_dict_get, merged_dict_get, <- (form_value_keys f c).
  destruct (form_value f c) as [v|]; [unfold is_Some; naive_solver|].
  case_bool_decide; unfold is_Some; naive_solver.
Qed.

Lemma edit_merge_fixed_eq t e sel f idx rest :
  email_matches (rows t) e = idx :: rest ->
  edit_merge_fixed t e sel f =
  let D := merged_dict t sel idx f in
  let t1 := add_missing_columns (map fst D) t in
  Some (loc_assign t1 idx
          (omap (fun col => pair col <$> dict_get (normalize_dict D) col) (columns t1))).
Proof. intros H. unfold edit_merge_fixed. rewrite H. reflexivity. Qed.

(** The rows written by the later revision's merge: the target row takes
    the normalized dict value of every dict key; the other rows only gain
    the null cells of the new columns. *)
Lemma merge_fixed_rows t (D : dict) idx j r :
  idx < length (rows t) ->
  rows t !! j = Some r ->
  let t1 := add_missing_columns (map fst D) t in
  let t2 := loc_assign t1 idx
              (omap (fun col => pair col <$> dict_get (normalize_dict D) col) (columns t1)) in
  exists r2, rows t2 !! j = Some r2 /\
    forall c, r2 !! c =
      if decide (j = idx)
      then match dict_get D c with Some v => Some (normalize v) | None => r !! c end
      else if bool_decide (c ∈ map fst D /\ c ∉ columns t) then Some VNull else r !! c.
Proof.
  intros Hidx Hr t1 t2.
  destruct (add_missing_columns_rows (map fst D) t j r Hr) as (r' & Hr' & Hc).
  subst t2. rewrite loc_assign_in_range
    by (subst t1; by rewrite add_missing_columns_length). cbn [rows].
  destruct (decide (j = idx)) as [->|Hne].
  - rewrite list_lookup_alter_eq. subst t1. rewrite Hr'.
    eexists; split; [reflexivity|]. intros c.
    rewrite write_cells_omap, dict_get_normalize.
    destruct (dict_get D c) as [v|] eqn:Ed.
    + rewrite bool_decide_eq_true_2; [reflexivity|].
      apply add_missing_columns_columns. right.
      apply elem_of_keys_dict_get. by exists v.
    + assert (Hn : c ∉ map fst D).
      { rewrite elem_of_keys_dict_get, Ed. by intros [? ?]. }
      rewrite (Hc c), (bool_decide_eq_false_2 (c ∈ map fst D /\ _)) by naive_solver.
      case_bool_decide; reflexivity.
  - rewrite list_lookup_alter_ne by congruence. subst t1. rewrite Hr'. eauto.
Qed.

Lemma merge_fixed_length t (D : dict) idx :
  idx < length (rows t) ->
  let t1 := add_missing_columns (map fst D) t in
  length (rows (loc_assign t1 idx
     (omap (fun col => pair col <$> dict_get (normalize_dict D) col) (columns t1))))
  = length (rows t).
Proof.
  intros Hidx t1. rewrite loc_assign_in_range
    by (subst t1; by rewrite add_missing_columns_length).
  cbn [rows]. rewrite length_alter. subst t1. apply add_missing_columns_length.
Qed.

Lemma edit_merge_orig_eq t sidx sel f :
  edit_merge_orig t sidx sel f =
  let idx := target_orig t sidx sel in
  let D := merged_dict t sel idx f in
  let t1 := add_missing_columns (map fst D) t in
  loc_assign t1 idx
    (map (fun col => (col, match dict_get (normalize_dict D) col with
                           | Some v => v
                           | None => cell t1 idx col
                           end)) (columns t1)).
Proof. reflexivity. Qed.

(** The rows written by the original revision's merge ([row_data]). *)
Lemma merge_orig_rows t (D : dict) idx j r :
  idx < length (rows t) ->
  (forall c, c ∈ columns t -> is_Some (dict_get D c)) ->
  rows t !! j = Some r ->
  let t1 := add_missing_columns (map fst D) t in
  let t2 := loc_assign t1 idx
              (map (fun col => (col, match dict_get (normalize_dict D) col with
                                     | Some v => v
                                     | None => cell t1 idx col
                                     end)) (columns t1)) in
  exists r2, rows t2 !! j = Some r2 /\
    forall c, r2 !! c =
      if decide (j = idx)
      then match dict_get D c with Some v => Some (normalize v) | None => r !! c end
      else if bool_decide (c ∈ map fst D /\ c ∉ columns t) then Some VNull else r !! c.
Proof.
  intros Hidx HD Hr t1 t2.
  destruct (add_missing_columns_rows (map fst D) t j r Hr) as (r' & Hr' & Hc).
  subst t2. rewrite loc_assign_in_range
    by (subst t1; by rewrite add_missing_columns_length). cbn [rows].
  destruct (decide (j = idx)) as [->|Hne].
  - rewrite list_lookup_alter_eq. subst t1. rewrite Hr'.
    eexists; split; [reflexivity|]. intros c.
    rewrite write_cells_map, dict_get_normalize.
    destruct (dict_get D c) as [v|] eqn:Ed.
    + rewrite bool_decide_eq_true_2; [reflexivity|].
      apply add_missing_columns_columns. right.
      apply elem_of_keys_dict_get. by exists v.
    + assert (Hn : c ∉ map fst D).
      { rewrite elem_of_keys_dict_get, Ed. by intros [? ?]. }
      assert (Hnc : c ∉ columns t).
      { intros Hin. destruct (HD c Hin) as [? Hv]. congruence. }
      rewrite bool_decide_eq_false_2.
      * rewrite (Hc c), (bool_decide_eq_false_2 (c ∈ map fst D /\ _)) by naive_solver.
        reflexivity.
      * rewrite add_missing_columns_columns. naive_solver.
  - rewrite list_lookup_alter_ne by congruence. subst t1. rewrite Hr'. eauto.
Qed.

Lemma loc_assign_length_in_range t i (assigns : list (string * value)) :
  i < length (rows t) -> length (rows (loc_assign t i assigns)) = length (rows t).
Proof. intros Hi. rewrite loc_assign_in_range by done. apply length_alter. Qed.

(** Setting with enlargement: a write at a missing label adds one row. *)
Lemma loc_assign_out_of_range t i a (assigns : list (string * value)) :
  length (rows t) <= i ->
  length (rows (loc_assign t i (a :: assigns))) = S (length (rows t)).
Proof.
  intros Hi. unfold loc_assign. rewrite decide_False by lia. cbn [rows].
  rewrite length_app. simpl. lia.
Qed.

Lemma merged_dict_covers t sel idx f c :
  c ∈ columns t -> is_Some (dict_get (merged_dict t sel idx f) c).
Proof.
  intros Hc. rewrite merged_dict_get.
  destruct (form_value f c); [by eexists|].
  rewrite bool_decide_eq_true_2 by done. by eexists.
Qed.

Lemma commit_checked_committed t t2 t' :
  commit_checked t t2 = Committed t' -> t' = t2 /\ length (rows t2) = length (rows t).
Proof.
  unfold commit_checked. destruct (Nat.eqb_spec (length (rows t2)) (length (rows t))).
  - intros H. injection H as <-. done.
  - discriminate.
Qed.

Lemma commit_checked_same t t2 :
  length (rows t2) = length (rows t) -> commit_checked t t2 = Committed t2.
Proof. intros H. unfold commit_checked. by rewrite H, Nat.eqb_refl. Qed.

Lemma commit_checked_mismatch t t2 :
  length (rows t2) <> length (rows t) -> commit_checked t t2 = Rejected IntegrityError.
Proof.
  intros H. unfold commit_checked.
  destruct (Nat.eqb_spec (length (rows t2)) (length (rows t))); [done|reflexivity].
Qed.

(** ** Claims *)

(** C8: [apply_filters_fast] returns exactly the rows of the table (in
    order) for which every (column, allowed values) predicate with a
    non-empty allowed list over a column of the table holds; an empty list
    leaves its column unconstrained and a predicate over a column the table
    lacks is ignored. *)
Theorem apply_filters_fast_spec (t : table)
    (regions roles business_units employee_types : list value) :
  apply_filters_fast t regions roles business_units employee_types =
  filter_spec t [("Region", regions); ("Role", roles);
                 ("Business Unit", business_units);
                 ("Employee Type", employee_types)].
Proof.
  unfold apply_filters_fast, filter_spec. f_equal.
  apply List.filter_ext. intros r.
  rewrite !mask_step_spec, !bool_decide_Forall_cons.
  rewrite (bool_decide_eq_true_2 (Forall _ [])) by constructor.
  rewrite !andb_true_r. simpl. rewrite !andb_assoc. reflexivity.
Qed.

(** C1: in the later revision, when the selected 'Work Email' matches no
    row of the current table, the edit is rejected with [NotFoundError] and
    the session table is left exactly as it was (no row is written, no
    positional fallback). *)
Theorem edit_fixed_identity_miss (t : table) (selected_email : value) (sel : row)
    (f : form) :
  required_missing f = false ->
  email_matches (rows t) selected_email = [] ->
  edit_submit_fixed t selected_email sel f = Rejected NotFoundError /\
  session_after t (edit_submit_fixed t selected_email sel f) = t.
Proof.
  intros Hreq Hmiss. unfold edit_submit_fixed, edit_merge_fixed.
  rewrite Hreq, Hmiss. split; reflexivity.
Qed.

Lemma edit_fixed_identity_miss_witness :
  required_missing sample_form = false /\
  email_matches (rows sample_table) (VStr "c@x.com") = [] /\
  edit_submit_fixed sample_table (VStr "c@x.com") ∅ sample_form = Rejected NotFoundError.
Proof.
  split; [reflexivity|]. split; [reflexivity|].
  refine (proj1 (edit_fixed_identity_miss sample_table (VStr "c@x.com") ∅ sample_form _ _));
    reflexivity.
Defined.

(** C2: in both revisions, an edit that commits leaves the row count
    unchanged; and when the merged copy's row count differs from the count
    before the edit, the edit is rejected with [IntegrityError] and the
    session table stays in its pre-update state. *)
Theorem edit_row_count_guard :
  (forall t e sel f t',
     edit_submit_fixed t e sel f = Committed t' -> length (rows t') = length (rows t)) /\
  (forall t e sel f t2,
     required_missing f = false ->
     edit_merge_fixed t e sel f = Some t2 ->
     length (rows t2) <> length (rows t) ->
     edit_submit_fixed t e sel f = Rejected IntegrityError /\
     session_after t (edit_submit_fixed t e sel f) = t) /\
  (forall t sidx sel f t',
     edit_submit_orig t sidx sel f = Committed t' -> length (rows t') = length (rows t)) /\
  (forall t sidx sel f,
     required_missing f = false ->
     length (rows (edit_merge_orig t sidx sel f)) <> length (rows t) ->
     edit_submit_orig t sidx sel f = Rejected IntegrityError /\
     session_after t (edit_submit_orig t sidx sel f) = t).
Proof.
  split; [|split; [|split]].
  - intros t e sel f t'. unfold edit_submit_fixed.
    destruct (required_missing f); [discriminate|].
    destruct (edit_merge_fixed t e sel f) as [t2|]; [|discriminate].
    intros H. apply commit_checked_committed in H as [-> H]. exact H.
  - intros t e sel f t2 Hreq Hm Hne. unfold edit_submit_fixed.
    rewrite Hreq, Hm, commit_checked_mismatch by exact Hne. split; reflexivity.
  - intros t sidx sel f t'. unfold edit_submit_orig.
    destruct (required_missing f); [discriminate|].
    intros H. apply commit_checked_committed in H as [-> H]. exact H.
  - intros t sidx sel f Hreq Hne. unfold edit_submit_orig.
    rewrite Hreq, commit_checked_mismatch by exact Hne. split; reflexivity.
Qed.

(** A stale selection whose position lies past the end of the table: the
    original revision's merge enlarges the copy and the guard rejects it. *)
Lemma edit_row_count_guard_witness :
  length (rows (edit_merge_orig sample_table 5 stale_selection sample_form)) = 3 /\
  edit_submit_orig sample_table 5 stale_selection sample_form = Rejected IntegrityError.
Proof.
  split; [vm_compute; reflexivity|].
  destruct edit_row_count_guard as (_ & _ & _ & Horig).
  refine (proj1 (Horig sample_table 5 stale_selection sample_form _ _));
    vm_compute; [reflexivity|discriminate].
Defined.

(** C6: an add whose 'Preferred Name' or 'Work Email' is empty is rejected
    with [ValidationError]; nothing is appended and the table is
    unchanged. *)
Theorem add_rejects_missing_required (t : table) (f : form) :
  preferred_name f = "" \/ work_email f = "" ->
  add_submit t f = Rejected ValidationError /\
  session_after t (add_submit t f) = t.
Proof.
  intros Hmiss.
  assert (Hreq : required_missing f = true).
  { unfold required_missing. destruct Hmiss as [-> | ->]; simpl;
      [reflexivity|apply orb_true_r]. }
  unfold add_submit. rewrite Hreq. split; reflexivity.
Qed.

Lemma add_rejects_missing_required_witness :
  add_submit sample_table (mk_form "" "c@x.com" (fun _ => FText "x"))
  = Rejected ValidationError.
Proof.
  refine (proj1 (add_rejects_missing_required sample_table
                   (mk_form "" "c@x.com" (fun _ => FText "x")) _)).
  left. reflexivity.
Defined.

Lemma select_employee_row t e sel idx rest :
  email_matches (rows t) e = idx :: rest ->
  select_employee t e = Some sel -> rows t !! idx = Some sel.
Proof. intros H. unfold select_employee. by rewrite H. Qed.

Lemma wf_row t j r c :
  wf t -> rows t !! j = Some r -> is_Some (r !! c) <-> c ∈ columns t.
Proof. intros Hwf Hr. exact (Forall_lookup_1 _ _ _ _ Hwf Hr c). Qed.

(** The later revision's edit, once the identity is found: it commits, keeps
    the row count, and writes the merged dict into the first matching row. *)
Lemma edit_fixed_found t e sel f idx rest :
  required_missing f = false ->
  email_matches (rows t) e = idx :: rest ->
  exists t', edit_submit_fixed t e sel f = Committed t' /\
    length (rows t') = length (rows t) /\
    forall j r, rows t !! j = Some r -> exists r2, rows t' !! j = Some r2 /\
      forall c, r2 !! c =
        if decide (j = idx)
        then match dict_get (merged_dict t sel idx f) c with
             | Some v => Some (normalize v)
             | None => r !! c
             end
        else if bool_decide (c ∈ form_keys /\ c ∉ columns t) then Some VNull
             else r !! c.
Proof.
  intros Hreq Hm.
  pose proof (email_matches_head_lt _ _ _ _ Hm) as Hlt.
  unfold edit_submit_fixed. rewrite Hreq, (edit_merge_fixed_eq _ _ _ _ _ _ Hm).
  cbv beta iota zeta. rewrite commit_checked_same by (apply merge_fixed_length; exact Hlt).
  eexists; split; [reflexivity|]. split; [by apply merge_fixed_length|].
  intros j r Hr.
  destruct (merge_fixed_rows t (merged_dict t sel idx f) idx j r Hlt Hr)
    as (r2 & Hr2 & Hc).
  exists r2. split; [exact Hr2|]. intros c. rewrite Hc.
  destruct (decide (j = idx)); [reflexivity|].
  case_bool_decide as H1; case_bool_decide as H2; try reflexivity;
    exfalso; rewrite merged_dict_keys in H1; naive_solver.
Qed.

(** C3 (as stated, refuted): the normalization loop of the edit handler
    also runs over the carried-forward cells, so a column the form does not
    edit whose cell is a blank string (here [Notes] = " ") is changed to
    null. *)
Lemma edit_fixed_blank_carry_forward_cex :
  select_employee sample_table (VStr "a@x.com") = Some (sample_row "Ann" "a@x.com" " ") /\
  ("Notes" ∉ form_keys) /\
  exists t', edit_submit_fixed sample_table (VStr "a@x.com")
               (sample_row "Ann" "a@x.com" " ") sample_form = Committed t' /\
    lookup_cell sample_table 0 "Notes" = Some (VStr " ") /\
    lookup_cell t' 0 "Notes" = Some VNull.
Proof.
  split; [vm_compute; reflexivity|].
  split.
  { unfold form_keys, form_fields. intros Hin.
    repeat (apply elem_of_cons in Hin as [Hin|Hin]; [discriminate|]).
    by apply elem_of_nil in Hin. }
  eexists; split; [vm_compute; reflexivity|].
  split; vm_compute; reflexivity.
Qed.

(** C3 (amended): in the later revision, when the selected 'Work Email'
    is found and the form's required fields are filled, the edit commits
    with the same row count; in the target row (the first match, the row
    the form was opened on) every column the form edits holds the
    normalized form value, and every other column keeps its value except
    that a blank string (empty or whitespace only) becomes null; every other
    row keeps all its cells and gets null for the form columns the table did
    not have yet. *)
Theorem edit_fixed_merge (t : table) (e : value) (sel : row) (f : form)
    (idx : nat) (rest : list nat) :
  wf t ->
  required_missing f = false ->
  email_matches (rows t) e = idx :: rest ->
  select_employee t e = Some sel ->
  exists t', edit_submit_fixed t e sel f = Committed t' /\
    length (rows t') = length (rows t) /\
    forall j r, rows t !! j = Some r -> exists r', rows t' !! j = Some r' /\
      (j = idx -> forall c,
         (forall v, form_value f c = Some v -> r' !! c = Some (normalize v)) /\
         (form_value f c = None -> r' !! c = normalize <$> r !! c)) /\
      (j <> idx -> forall c,
         r' !! c = if bool_decide (c ∈ form_keys /\ c ∉ columns t) then Some VNull
                   else r !! c).
Proof.
  intros Hwf Hreq Hm Hsel.
  pose proof (select_employee_row _ _ _ _ _ Hm Hsel) as Hsr.
  destruct (edit_fixed_found t e sel f idx rest Hreq Hm) as (t' & Hc & Hlen & Hrows).
  exists t'. split; [exact Hc|]. split; [exact Hlen|].
  intros j r Hr. destruct (Hrows j r Hr) as (r2 & Hr2 & Hcell).
  exists r2. split; [exact Hr2|]. split.
  - intros -> c. rewrite Hsr in Hr. injection Hr as <-.
    rewrite Hcell, decide_True by reflexivity. rewrite merged_dict_get.
    split.
    + intros v Hv. by rewrite Hv.
    + intros Hn. rewrite Hn. case_bool_decide as Hin.
      * apply (wf_row t idx sel c Hwf Hsr) in Hin as [w Hw].
        unfold row_get. by rewrite Hw.
      * destruct (sel !! c) eqn:Hw; [|reflexivity].
        exfalso. apply Hin. apply (wf_row t idx sel c Hwf Hsr). by eexists.
  - intros Hne c. by rewrite Hcell, decide_False by exact Hne.
Qed.

Lemma sample_row_dom name email notes c :
  is_Some (sample_row name email notes !! c) <->
  c ∈ ["Preferred Name"; "Work Email"; "Notes"].
Proof.
  unfold sample_row. rewrite !lookup_insert_is_Some', lookup_empty.
  rewrite !elem_of_cons, elem_of_nil. unfold is_Some. naive_solver.
Qed.

Lemma sample_table_wf : wf sample_table.
Proof.
  unfold wf, sample_table. cbn [rows columns].
  repeat apply Forall_cons_2; [intros c; apply sample_row_dom ..|apply Forall_nil_2].
Qed.

Lemma duplicate_table_wf : wf duplicate_table.
Proof.
  unfold wf, duplicate_table. cbn [rows columns].
  repeat apply Forall_cons_2; [intros c; apply sample_row_dom ..|apply Forall_nil_2].
Qed.

Lemma edit_fixed_merge_witness :
  exists t', edit_submit_fixed sample_table (VStr "b@x.com")
               (sample_row "Bob" "b@x.com" "n")
               (mk_form "Bob2" "b@x.com" (fun _ => FText "")) = Committed t'.
Proof.
  destruct (edit_fixed_merge sample_table (VStr "b@x.com") (sample_row "Bob" "b@x.com" "n")
              (mk_form "Bob2" "b@x.com" (fun _ => FText "")) 1 [])
    as (t' & H & _).
  - exact sample_table_wf.
  - reflexivity.
  - vm_compute. reflexivity.
  - vm_compute. reflexivity.
  - exists t'. exact H.
Defined.

(** C9: in the later revision, when several rows carry the selected
    'Work Email', the edit commits on the earliest of them (the first index
    of the mask) and every later matching row keeps all its cells: the
    uniqueness of the identity column is assumed, not checked. *)
Theorem edit_fixed_first_match (t : table) (e : value) (sel : row) (f : form)
    (i : nat) (rest : list nat) :
  required_missing f = false ->
  email_matches (rows t) e = i :: rest ->
  rest <> [] ->
  exists t', edit_submit_fixed t e sel f = Committed t' /\
    (forall c v, form_value f c = Some v -> lookup_cell t' i c = Some (normalize v)) /\
    (forall j, j ∈ rest -> i < j /\
       forall c, c ∈ columns t -> lookup_cell t' j c = lookup_cell t j c).
Proof.
  intros Hreq Hm _.
  destruct (edit_fixed_found t e sel f i rest Hreq Hm) as (t' & Hc & _ & Hrows).
  exists t'. split; [exact Hc|]. split.
  - intros c v Hv.
    assert (Hi : i ∈ email_matches (rows t) e) by (rewrite Hm; left).
    apply email_matches_spec in Hi as (r & Hr & _).
    destruct (Hrows i r Hr) as (r2 & Hr2 & Hcell).
    unfold lookup_cell. rewrite Hr2. cbn [mbind option_bind].
    rewrite Hcell, decide_True, merged_dict_get, Hv by reflexivity. reflexivity.
  - intros j Hj. split; [exact (email_matches_first _ _ _ _ _ Hm Hj)|].
    intros c Hc'.
    assert (Hj' : j ∈ email_matches (rows t) e) by (rewrite Hm; by right).
    apply email_matches_spec in Hj' as (r & Hr & _).
    destruct (Hrows j r Hr) as (r2 & Hr2 & Hcell).
    unfold lookup_cell. rewrite Hr2, Hr. cbn [mbind option_bind].
    pose proof (email_matches_first _ _ _ _ _ Hm Hj).
    rewrite Hcell, decide_False by lia.
    rewrite bool_decide_eq_false_2 by naive_solver. reflexivity.
Qed.

Lemma edit_fixed_first_match_witness :
  exists t', edit_submit_fixed duplicate_table (VStr "a@x.com")
               (sample_row "Ann" "a@x.com" "1")
               (mk_form "Ann2" "a@x.com" (fun _ => FText "")) = Committed t'.
Proof.
  destruct (edit_fixed_first_match duplicate_table (VStr "a@x.com")
              (sample_row "Ann" "a@x.com" "1")
              (mk_form "Ann2" "a@x.com" (fun _ => FText "")) 0 [1])
    as (t' & H & _).
  - reflexivity.
  - vm_compute. reflexivity.
  - discriminate.
  - exists t'. exact H.
Defined.

(** The original revision's edit when its target position is in range: it
    commits, keeps the row count, and writes the merged dict into the
    target row. *)
Lemma edit_orig_found t sidx sel f :
  required_missing f = false ->
  target_orig t sidx sel < length (rows t) ->
  exists t', edit_submit_orig t sidx sel f = Committed t' /\
    length (rows t') = length (rows t) /\
    forall j r, rows t !! j = Some r -> exists r2, rows t' !! j = Some r2 /\
      forall c, r2 !! c =
        if decide (j = target_orig t sidx sel)
        then match dict_get (merged_dict t sel (target_orig t sidx sel) f) c with
             | Some v => Some (normalize v)
             | None => r !! c
             end
        else if bool_decide (c ∈ form_keys /\ c ∉ columns t) then Some VNull
             else r !! c.
Proof.
  intros Hreq Hlt.
  set (idx := target_orig t sidx sel) in *.
  set (D := merged_dict t sel idx f).
  assert (Hlen : length (rows (edit_merge_orig t sidx sel f)) = length (rows t)).
  { rewrite edit_merge_orig_eq. cbv zeta. fold idx. fold D.
    rewrite loc_assign_length_in_range
      by (by rewrite add_missing_columns_length).
    apply add_missing_columns_length. }
  unfold edit_submit_orig. rewrite Hreq, commit_checked_same by exact Hlen.
  eexists; split; [reflexivity|]. split; [exact Hlen|].
  intros j r Hr.
  rewrite edit_merge_orig_eq. cbv zeta. fold idx. fold D.
  destruct (merge_orig_rows t D idx j r Hlt (merged_dict_covers t sel idx f) Hr)
    as (r2 & Hr2 & Hc).
  exists r2. split; [exact Hr2|]. intros c. rewrite Hc.
  destruct (decide (j = idx)); [reflexivity|].
  case_bool_decide as H1; case_bool_decide as H2; try reflexivity;
    exfalso; subst D; rewrite merged_dict_keys in H1; naive_solver.
Qed.

(** C4: in the original revision, when the 'Work Email' of the selected
    employee matches no row of the current table, the edit falls back to the
    stored position [selected_idx] (a position of the table, as it is taken
    from the table's index): it commits without any error, writes the form
    values into the row at that position and leaves every other row's cells
    as they were. *)
Theorem edit_orig_positional_fallback (t : table) (sidx : nat) (sel : row) (f : form) :
  required_missing f = false ->
  email_matches (rows t) (original_email sel) = [] ->
  sidx < length (rows t) ->
  exists t', edit_submit_orig t sidx sel f = Committed t' /\
    (forall c v, form_value f c = Some v -> lookup_cell t' sidx c = Some (normalize v)) /\
    (forall j, j <> sidx -> forall c, c ∈ columns t ->
       lookup_cell t' j c = lookup_cell t j c).
Proof.
  intros Hreq Hm Hlt.
  assert (Htgt : target_orig t sidx sel = sidx) by (unfold target_orig; by rewrite Hm).
  destruct (edit_orig_found t sidx sel f Hreq) as (t' & Hc & Hlen & Hrows);
    [by rewrite Htgt|].
  rewrite Htgt in Hrows.
  exists t'. split; [exact Hc|]. split.
  - intros c v Hv.
    destruct (lookup_lt_is_Some_2 (rows t) sidx Hlt) as [r Hr].
    destruct (Hrows sidx r Hr) as (r2 & Hr2 & Hcell).
    unfold lookup_cell. rewrite Hr2. cbn [mbind option_bind].
    rewrite Hcell, decide_True, merged_dict_get, Hv by reflexivity. reflexivity.
  - intros j Hne c Hc'. unfold lookup_cell.
    destruct (rows t !! j) as [r|] eqn:Hr.
    + destruct (Hrows j r Hr) as (r2 & Hr2 & Hcell).
      rewrite Hr2. cbn [mbind option_bind].
      rewrite Hcell, decide_False by exact Hne.
      rewrite bool_decide_eq_false_2 by naive_solver. reflexivity.
    + apply lookup_ge_None in Hr. rewrite (proj2 (lookup_ge_None _ _)) by lia.
      reflexivity.
Qed.

Lemma edit_orig_positional_fallback_witness :
  exists t', edit_submit_orig sample_table 1 stale_selection sample_form = Committed t'.
Proof.
  destruct (edit_orig_positional_fallback sample_table 1 stale_selection sample_form)
    as (t' & H & _).
  - reflexivity.
  - vm_compute. reflexivity.
  - vm_compute. lia.
  - exists t'. exact H.
Defined.

(** A blank string typed into a text widget reaches the dict and is
    normalized to null. *)
Lemma submitted_text_blank f k s :
  submitted_text f k = Some s -> strip_is_empty s = true ->
  exists v, form_value f k = Some v /\ normalize v = VNull.
Proof.
  intros Hk Hs. unfold submitted_text in Hk. unfold form_value, record_of_form.
  destruct (String.eqb_spec k "Preferred Name") as [->|H1].
  - injection Hk as <-. eexists; split; [reflexivity|]. simpl. by rewrite Hs.
  - destruct (String.eqb_spec k "Work Email") as [->|H2].
    + injection Hk as <-. eexists; split; [reflexivity|]. simpl. by rewrite Hs.
    + case_bool_decide as Hin; [|discriminate].
      destruct (field_of f k) as [s'|d] eqn:Ef; [|discriminate].
      injection Hk as <-.
      cbn [dict_get]. apply String.eqb_neq in H1, H2. rewrite H1, H2.
      rewrite dict_get_map, bool_decide_eq_true_2 by exact Hin.
      rewrite Ef. eexists; split; [reflexivity|]. simpl.
      destruct (String.eqb s' ""); [reflexivity|]. simpl. by rewrite Hs.
Qed.

Lemma preferred_name_column t sel idx f :
  "Preferred Name" ∈ columns (add_missing_columns (map fst (merged_dict t sel idx f)) t).
Proof.
  apply add_missing_columns_columns. right. apply merged_dict_keys. left. left.
Qed.

(** A committed edit of the original revision wrote inside the table. *)
Lemma edit_orig_committed_in_range t sidx sel f t' :
  edit_submit_orig t sidx sel f = Committed t' ->
  target_orig t sidx sel < length (rows t).
Proof.
  intros H. destruct (decide (target_orig t sidx sel < length (rows t))) as [|Hge];
    [done|exfalso].
  unfold edit_submit_orig in H.
  destruct (required_missing f); [discriminate|].
  rewrite commit_checked_mismatch in H; [discriminate|].
  rewrite edit_merge_orig_eq. cbv zeta.
  pose proof (preferred_name_column t sel (target_orig t sidx sel) f) as Hpn.
  destruct (columns (add_missing_columns _ t)) as [|c0 cs]; [by apply elem_of_nil in Hpn|].
  cbn [map]. rewrite loc_assign_out_of_range
    by (rewrite add_missing_columns_length; lia).
  rewrite add_missing_columns_length. lia.
Qed.

(** C5: in both revisions, a committed edit stores null, never an empty or
    whitespace-only string, in the target row for every text field that was
    submitted empty or whitespace-only. *)
Theorem edit_blank_to_null :
  (forall (t : table) e sel f t' i rest k s,
     edit_submit_fixed t e sel f = Committed t' ->
     email_matches (rows t) e = i :: rest ->
     submitted_text f k = Some s -> strip_is_empty s = true ->
     lookup_cell t' i k = Some VNull) /\
  (forall (t : table) sidx sel f t' k s,
     edit_submit_orig t sidx sel f = Committed t' ->
     submitted_text f k = Some s -> strip_is_empty s = true ->
     lookup_cell t' (target_orig t sidx sel) k = Some VNull).
Proof.
  split.
  - intros t e sel f t' i rest k s Hc Hm Hk Hs.
    destruct (submitted_text_blank f k s Hk Hs) as (v & Hv & Hn).
    assert (Hreq : required_missing f = false).
    { unfold edit_submit_fixed in Hc. by destruct (required_missing f). }
    destruct (edit_fixed_found t e sel f i rest Hreq Hm) as (t2 & Hc2 & _ & Hrows).
    rewrite Hc in Hc2. injection Hc2 as <-.
    assert (Hi : i ∈ email_matches (rows t) e) by (rewrite Hm; left).
    apply email_matches_spec in Hi as (r & Hr & _).
    destruct (Hrows i r Hr) as (r2 & Hr2 & Hcell).
    unfold lookup_cell. rewrite Hr2. cbn [mbind option_bind].
    rewrite Hcell, decide_True, merged_dict_get, Hv, Hn by reflexivity. reflexivity.
  - intros t sidx sel f t' k s Hc Hk Hs.
    destruct (submitted_text_blank f k s Hk Hs) as (v & Hv & Hn).
    assert (Hreq : required_missing f = false).
    { unfold edit_submit_orig in Hc. by destruct (required_missing f). }
    pose proof (edit_orig_committed_in_range _ _ _ _ _ Hc) as Hlt.
    destruct (edit_orig_found t sidx sel f Hreq Hlt) as (t2 & Hc2 & _ & Hrows).
    rewrite Hc in Hc2. injection Hc2 as <-.
    destruct (lookup_lt_is_Some_2 (rows t) _ Hlt) as [r Hr].
    destruct (Hrows _ r Hr) as (r2 & Hr2 & Hcell).
    unfold lookup_cell. rewrite Hr2. cbn [mbind option_bind].
    rewrite Hcell, decide_True, merged_dict_get, Hv, Hn by reflexivity. reflexivity.
Qed.

Lemma edit_blank_to_null_witness :
  lookup_cell (session_after sample_table
                 (edit_submit_fixed sample_table (VStr "b@x.com")
                    (sample_row "Bob" "b@x.com" "n") blank_personal_form))
              1 "Personal" = Some VNull.
Proof.
  destruct edit_blank_to_null as [Hfixed _].
  apply (Hfixed sample_table (VStr "b@x.com") (sample_row "Bob" "b@x.com" "n")
           blank_personal_form _ 1 [] "Personal" "  ").
  - vm_compute. reflexivity.
  - vm_compute. reflexivity.
  - reflexivity.
  - reflexivity.
Defined.

(** ** Add handler lemmas *)

Lemma union_columns_split (all : list string) a b :
  union_columns all a b = (add_missing_columns all a, add_missing_columns all b).
Proof.
  unfold union_columns, add_missing_columns. revert a b.
  induction all as [|c all IH]; intros a b; [reflexivity|]. simpl. apply IH.
Qed.

Lemma fill_nulls_lookup (cols : list string) (r : row) c :
  fill_nulls cols r !! c =
  match r !! c with
  | Some v => Some v
  | None => if bool_decide (c ∈ cols) then Some VNull else None
  end.
Proof.
  unfold fill_nulls. revert r. induction cols as [|c' cols IH]; intros r; cbn [fold_left].
  - destruct (r !! c); [reflexivity|].
    rewrite bool_decide_eq_false_2; [reflexivity|apply not_elem_of_nil].
  - rewrite IH. destruct (r !! c') as [v'|] eqn:Ec'.
    + destruct (r !! c) as [v|] eqn:Ec; [reflexivity|].
      assert (c <> c') by congruence. bool_decide_cases.
    + destruct (decide (c = c')) as [->|Hne].
      * rewrite lookup_insert_eq, Ec'. bool_decide_cases.
      * rewrite lookup_insert_ne by congruence.
        destruct (r !! c); [reflexivity|]. bool_decide_cases.
Qed.

Lemma row_of_dict_fold_notin (d : dict) (r : row) c :
  c ∉ map fst d ->
  fold_left (fun (r : row) kv => <[kv.1:=kv.2]> r) d r !! c = r !! c.
Proof.
  revert r. induction d as [|[k v] d IH]; intros r Hc; [reflexivity|].
  cbn [fold_left fst snd]. rewrite IH.
  - apply lookup_insert_ne. intros ->. apply Hc. left.
  - intros Hin. apply Hc. by right.
Qed.

Lemma row_of_dict_dom (d : dict) c :
  is_Some (row_of_dict d !! c) <-> c ∈ map fst d.
Proof.
  unfold row_of_dict.
  assert (Hgen : forall (r : row), is_Some (fold_left (fun (r : row) kv => <[kv.1:=kv.2]> r) d r !! c)
                   <-> c ∈ map fst d \/ is_Some (r !! c)).
  { induction d as [|[k v] d IH]; intros r; cbn [fold_left map fst snd].
    - rewrite elem_of_nil. naive_solver.
    - rewrite IH, elem_of_cons, lookup_insert_is_Some'. naive_solver. }
  rewrite Hgen, lookup_empty. unfold is_Some. naive_solver.
Qed.

Lemma work_email_not_form_field : "Work Email" ∉ form_fields.
Proof.
  unfold form_fields. intros Hin.
  repeat (apply elem_of_cons in Hin as [Hin|Hin]; [discriminate|]).
  by apply elem_of_nil in Hin.
Qed.

Lemma map_fst_record_of_form f : map fst (record_of_form f) = form_keys.
Proof. reflexivity. Qed.

Lemma row_of_form_work_email f :
  row_of_dict (record_of_form f) !! "Work Email" = Some (VStr (work_email f)).
Proof.
  unfold row_of_dict, record_of_form. cbn [fold_left fst snd].
  rewrite row_of_dict_fold_notin.
  - apply lookup_insert_eq.
  - replace (map fst (map (fun k => (k, field_value (field_of f k))) form_fields))
      with form_fields by (rewrite map_map; symmetry; apply map_id).
    apply work_email_not_form_field.
Qed.

(** The non-empty branch of [add_submit]. *)
Lemma add_submit_nonempty t f :
  required_missing f = false -> df_empty t = false ->
  let new_employee := record_of_form f in
  let new_df := mk_table (map fst new_employee) [row_of_dict new_employee] in
  let all_cols := columns t ++ columns new_df in
  add_submit t f = Committed (concat_tables (add_missing_columns all_cols t)
                                            (add_missing_columns all_cols new_df)).
Proof.
  intros Hreq Hne. unfold add_submit. rewrite Hreq, Hne. cbv zeta.
  rewrite union_columns_split. reflexivity.
Qed.

Lemma df_empty_false t j (r : row) :
  rows t !! j = Some r -> "Work Email" ∈ columns t -> df_empty t = false.
Proof.
  intros Hr Hc. unfold df_empty.
  rewrite !bool_decide_eq_false_2; [reflexivity| |].
  - intros Hnil. rewrite Hnil in Hc. by apply elem_of_nil in Hc.
  - intros Hnil. rewrite Hnil in Hr. by rewrite lookup_nil in Hr.
Qed.

(** C10: adding an employee never looks at the identity values already in
    the table: with a 'Work Email' that an existing row already carries,
    the add commits, the table grows by one row, and both the existing row
    and the new last row carry that 'Work Email'. *)
Theorem add_allows_duplicate_identity (t : table) (f : form) (j : nat) (r : row) :
  wf t ->
  required_missing f = false ->
  rows t !! j = Some r ->
  r !! "Work Email" = Some (VStr (work_email f)) ->
  exists t', add_submit t f = Committed t' /\
    length (rows t') = S (length (rows t)) /\
    lookup_cell t' j "Work Email" = Some (VStr (work_email f)) /\
    lookup_cell t' (length (rows t)) "Work Email" = Some (VStr (work_email f)).
Proof.
  intros Hwf Hreq Hr Hwe.
  assert (Hcol : "Work Email" ∈ columns t).
  { apply (wf_row t j r _ Hwf Hr). by eexists. }
  rewrite (add_submit_nonempty t f Hreq (df_empty_false t j r Hr Hcol)).
  cbv zeta.
  set (all := columns t ++ columns (mk_table (map fst (record_of_form f))
                                             [row_of_dict (record_of_form f)])).
  eexists; split; [reflexivity|].
  unfold concat_tables, lookup_cell. cbn [rows columns].
  split; [|split].
  - rewrite length_map, length_app, !add_missing_columns_length. simpl. lia.
  - destruct (add_missing_columns_rows all t j r Hr) as (r' & Hr' & Hc).
    rewrite lookup_map_list, lookup_app_l.
    2:{ rewrite add_missing_columns_length. by apply lookup_lt_Some in Hr. }
    rewrite Hr'. cbn [fmap option_fmap option_map mbind option_bind].
    rewrite fill_nulls_lookup, Hc, bool_decide_eq_false_2 by naive_solver.
    by rewrite Hwe.
  - set (new_df := mk_table (map fst (record_of_form f)) [row_of_dict (record_of_form f)]).
    destruct (add_missing_columns_rows all new_df 0 (row_of_dict (record_of_form f)) eq_refl)
      as (r' & Hr' & Hc).
    rewrite lookup_map_list, lookup_app_r by (rewrite add_missing_columns_length; lia).
    rewrite add_missing_columns_length, Nat.sub_diag, Hr'.
    cbn [fmap option_fmap option_map mbind option_bind].
    rewrite fill_nulls_lookup, Hc, bool_decide_eq_false_2.
    + by rewrite row_of_form_work_email.
    + intros [_ Hn]. apply Hn. subst new_df. cbn [columns].
      rewrite map_fst_record_of_form. right. left.
Qed.

Lemma add_allows_duplicate_identity_witness :
  exists t', add_submit sample_table (mk_form "Ann Again" "a@x.com" (fun _ => FText ""))
             = Committed t'.
Proof.
  destruct (add_allows_duplicate_identity sample_table
              (mk_form "Ann Again" "a@x.com" (fun _ => FText "")) 0
              (sample_row "Ann" "a@x.com" " ")) as (t' & H & _).
  - exact sample_table_wf.
  - reflexivity.
  - reflexivity.
  - reflexivity.
  - exists t'. exact H.
Defined.

Lemma add_missing_columns_rows_inv (K : list string) t j r' :
  rows (add_missing_columns K t) !! j = Some r' ->
  exists r, rows t !! j = Some r /\
    forall c, r' !! c = if bool_decide (c ∈ K /\ c ∉ columns t) then Some VNull
                        else r !! c.
Proof.
  intros H.
  assert (Hlt : j < length (rows t)).
  { apply lookup_lt_Some in H. by rewrite add_missing_columns_length in H. }
  destruct (lookup_lt_is_Some_2 _ _ Hlt) as [r Hr].
  destruct (add_missing_columns_rows K t j r Hr) as (r'' & Hr'' & Hc).
  rewrite H in Hr''. injection Hr'' as <-. eauto.
Qed.

Lemma concat_tables_columns a b c :
  c ∈ columns (concat_tables a b) <-> c ∈ columns a \/ c ∈ columns b.
Proof.
  unfold concat_tables. cbv zeta. cbn [columns].
  rewrite elem_of_app, (list_elem_of_In (List.filter _ _)), List.filter_In,
    <- list_elem_of_In.
  unfold has_column. case_bool_decide; simpl; naive_solver.
Qed.

Lemma fill_nulls_dom (cols : list string) (r : row) :
  (forall c, is_Some (r !! c) -> c ∈ cols) ->
  forall c, is_Some (fill_nulls cols r !! c) <-> c ∈ cols.
Proof.
  intros Hsub c. rewrite fill_nulls_lookup.
  destruct (r !! c) as [v|] eqn:Hc.
  - split; [intros _; apply Hsub; by rewrite Hc|by eexists].
  - case_bool_decide; unfold is_Some; naive_solver.
Qed.

(** The non-empty branch of the add handler (the path [C7] describes): the
    columns become the union of the table's and the form's, the row count
    grows by one, every row has a cell for every column, the existing cells
    are kept and the existing rows get null for the new columns. *)
Lemma add_nonempty_keeps_union t f :
  wf t -> required_missing f = false -> df_empty t = false ->
  exists t', add_submit t f = Committed t' /\
    (forall c, c ∈ columns t' <-> c ∈ columns t \/ c ∈ form_keys) /\
    length (rows t') = S (length (rows t)) /\
    wf t' /\
    (forall j r c, rows t !! j = Some r ->
       lookup_cell t' j c = if bool_decide (c ∈ columns t) then r !! c
                            else if bool_decide (c ∈ form_keys) then Some VNull
                            else None).
Proof.
  intros Hwf Hreq Hne.
  rewrite (add_submit_nonempty t f Hreq Hne). cbv zeta.
  set (new_df := mk_table (map fst (record_of_form f)) [row_of_dict (record_of_form f)]).
  set (all := columns t ++ columns new_df).
  assert (Hall : forall c, c ∈ all <-> c ∈ columns t \/ c ∈ form_keys).
  { intros c. subst all new_df. cbn [columns].
    rewrite elem_of_app, map_fst_record_of_form. reflexivity. }
  assert (Hcols : forall c, c ∈ columns (concat_tables (add_missing_columns all t)
                                                      (add_missing_columns all new_df))
                            <-> c ∈ columns t \/ c ∈ form_keys).
  { intros c. rewrite concat_tables_columns, !add_missing_columns_columns, Hall.
    subst new_df. cbn [columns]. rewrite map_fst_record_of_form. naive_solver. }
  eexists; split; [reflexivity|]. split; [exact Hcols|]. split.
  { unfold concat_tables. cbn [rows].
    rewrite length_map, length_app, !add_missing_columns_length. simpl. lia. }
  split.
  - unfold wf. apply Forall_lookup_2. intros i x Hx.
    unfold concat_tables in Hx |- *. cbn [rows columns] in Hx |- *.
    rewrite lookup_map_list in Hx. apply fmap_Some in Hx as (y & Hy & ->).
    intros c. rewrite fill_nulls_dom.
    + reflexivity.
    + intros c' Hc'. apply elem_of_app. left.
      apply lookup_app_Some in Hy as [Hy|[_ Hy]].
      * apply add_missing_columns_rows_inv in Hy as (r & Hr & Hc).
        rewrite Hc in Hc'. apply add_missing_columns_columns.
        case_bool_decide; [naive_solver|].
        right. apply Hall. left. by apply (wf_row t _ r c' Hwf Hr).
      * apply add_missing_columns_rows_inv in Hy as (r & Hr & Hc).
        rewrite Hc in Hc'. apply add_missing_columns_columns.
        case_bool_decide; [naive_solver|].
        right. apply Hall. right.
        apply list_elem_of_lookup_2 in Hr. unfold new_df in Hr. cbn [rows] in Hr.
        apply list_elem_of_singleton in Hr as ->.
        rewrite <- (map_fst_record_of_form f). by apply row_of_dict_dom.
  - intros j r c Hr. unfold lookup_cell, concat_tables. cbn [rows].
    destruct (add_missing_columns_rows all t j r Hr) as (r' & Hr' & Hc).
    rewrite lookup_map_list, lookup_app_l.
    2:{ rewrite add_missing_columns_length. by apply lookup_lt_Some in Hr. }
    rewrite Hr'. cbn [fmap option_fmap option_map mbind option_bind].
    rewrite fill_nulls_lookup, Hc.
    pose proof (wf_row t j r c Hwf Hr) as Hd.
    destruct (decide (c ∈ columns t)) as [Hin|Hin].
    + rewrite (bool_decide_eq_false_2 (c ∈ all /\ c ∉ columns t)) by naive_solver.
      rewrite (bool_decide_eq_true_2 (c ∈ columns t)) by done.
      destruct (r !! c) eqn:E; [reflexivity|].
      exfalso. apply Hd in Hin as [? ?]. congruence.
    + destruct (r !! c) eqn:E; [exfalso; apply Hin, Hd; by eexists|].
      rewrite (bool_decide_eq_false_2 (c ∈ columns t)) by done.
      destruct (decide (c ∈ form_keys)) as [Hf|Hf].
      * rewrite (bool_decide_eq_true_2 (c ∈ all /\ c ∉ columns t)) by (rewrite Hall; naive_solver).
        by rewrite (bool_decide_eq_true_2 (c ∈ form_keys)).
      * rewrite (bool_decide_eq_false_2 (c ∈ all /\ c ∉ columns t)) by (rewrite Hall; naive_solver).
        rewrite (bool_decide_eq_false_2 (c ∈ form_keys)) by done.
        rewrite bool_decide_eq_false_2; [reflexivity|].
        intros Hx. apply (proj1 (Hcols c)) in Hx. naive_solver.
Qed.

Lemma row_of_dict_get (d : dict) c :
  NoDup (map fst d) -> row_of_dict d !! c = dict_get d c.
Proof.
  unfold row_of_dict.
  assert (Hgen : forall (r : row), NoDup (map fst d) ->
            fold_left (fun (r : row) kv => <[kv.1:=kv.2]> r) d r !! c =
            match dict_get d c with Some v => Some v | None => r !! c end).
  { induction d as [|[k v] d IH]; intros r Hnd; [reflexivity|].
    cbn [fold_left fst snd map dict_get] in *.
    apply NoDup_cons in Hnd as [Hk Hnd]. rewrite IH by exact Hnd.
    destruct (String.eqb_spec c k) as [->|Hck].
    - assert (Hn : dict_get d k = None).
      { destruct (dict_get d k) eqn:E; [|reflexivity].
        exfalso. apply Hk, elem_of_keys_dict_get. rewrite E. by eexists. }
      by rewrite Hn, lookup_insert_eq.
    - destruct (dict_get d c); [reflexivity|]. by rewrite lookup_insert_ne by congruence. }
  intros Hnd. rewrite (Hgen ∅ Hnd), lookup_empty. by destruct (dict_get d c).
Qed.

Lemma form_keys_NoDup : NoDup form_keys.
Proof. refine (bool_decide_eq_true_1 _ _). vm_compute. reflexivity. Qed.

Lemma row_of_form_lookup f c :
  row_of_dict (record_of_form f) !! c = form_value f c.
Proof.
  apply row_of_dict_get. rewrite map_fst_record_of_form. exact form_keys_NoDup.
Qed.

(** The row the add handler appends (non-empty branch): the form's cells,
    and null for the table's columns the form lacks. *)
Lemma add_nonempty_new_row t f :
  required_missing f = false -> df_empty t = false ->
  exists t', add_submit t f = Committed t' /\
    forall c, lookup_cell t' (length (rows t)) c =
      if bool_decide (c ∈ form_keys) then form_value f c
      else if bool_decide (c ∈ columns t) then Some VNull else None.
Proof.
  intros Hreq Hne.
  rewrite (add_submit_nonempty t f Hreq Hne). cbv zeta.
  set (new_df := mk_table (map fst (record_of_form f)) [row_of_dict (record_of_form f)]).
  set (all := columns t ++ columns new_df).
  eexists; split; [reflexivity|]. intros c.
  destruct (add_missing_columns_rows all new_df 0 (row_of_dict (record_of_form f)) eq_refl)
    as (r' & Hr' & Hc).
  unfold lookup_cell, concat_tables. cbn [rows].
  rewrite lookup_map_list, lookup_app_r by (rewrite add_missing_columns_length; lia).
  rewrite add_missing_columns_length, Nat.sub_diag, Hr'.
  cbn [fmap option_fmap option_map mbind option_bind].
  rewrite fill_nulls_lookup, Hc, row_of_form_lookup.
  assert (Hcn : columns new_df = form_keys) by apply map_fst_record_of_form.
  rewrite Hcn.
  destruct (decide (c ∈ form_keys)) as [Hf|Hf].
  - rewrite (bool_decide_eq_false_2 (c ∈ all /\ c ∉ form_keys)) by naive_solver.
    rewrite (bool_decide_eq_true_2 (c ∈ form_keys)) by done.
    destruct (form_value f c) eqn:E; [reflexivity|].
    exfalso. apply (form_value_keys f c) in Hf as [? Hv]. congruence.
  - rewrite (bool_decide_eq_false_2 (c ∈ form_keys)) by done.
    assert (Hfv : form_value f c = None).
    { destruct (form_value f c) eqn:E; [|reflexivity].
      exfalso. apply Hf, (form_value_keys f c). rewrite E. by eexists. }
    assert (Hall : c ∈ all <-> c ∈ columns t \/ c ∈ form_keys).
    { subst all. rewrite elem_of_app, Hcn. reflexivity. }
    destruct (decide (c ∈ columns t)) as [Ht|Ht].
    + rewrite (bool_decide_eq_true_2 (c ∈ all /\ c ∉ form_keys)) by (rewrite Hall; naive_solver).
      by rewrite (bool_decide_eq_true_2 (c ∈ columns t)).
    + rewrite (bool_decide_eq_false_2 (c ∈ all /\ c ∉ form_keys)) by (rewrite Hall; naive_solver).
      rewrite Hfv, (bool_decide_eq_false_2 (c ∈ columns t)) by done.
      rewrite bool_decide_eq_false_2; [reflexivity|].
      change (c ∉ columns (concat_tables (add_missing_columns all t)
                                         (add_missing_columns all new_df))).
      rewrite concat_tables_columns, !add_missing_columns_columns, Hall, Hcn. naive_solver.
Qed.

(** One run on a non-empty table with a valid form. *)
Lemma add_run_step t f :
  wf t -> required_missing f = false -> df_empty t = false ->
  let t1 := after_run t (add_run t f) in
  (forall c, c ∈ columns t1 <-> c ∈ columns t \/ c ∈ form_keys) /\
  length (rows t1) = S (length (rows t)) /\
  wf t1 /\
  df_empty t1 = false /\
  (forall j r c, rows t !! j = Some r ->
     lookup_cell t1 j c = if bool_decide (c ∈ columns t) then r !! c
                          else if bool_decide (c ∈ form_keys) then Some VNull
                          else None) /\
  (forall c, lookup_cell t1 (length (rows t)) c =
     if bool_decide (c ∈ form_keys) then form_value f c
     else if bool_decide (c ∈ columns t) then Some VNull else None).
Proof.
  intros Hwf Hreq Hne. cbv zeta. unfold add_run. rewrite Hne. cbn [after_run session_after].
  destruct (add_nonempty_keeps_union t f Hwf Hreq Hne) as (t' & Ht' & Hcols & Hlen & Hwf' & Hold).
  destruct (add_nonempty_new_row t f Hreq Hne) as (t'' & Ht'' & Hnew).
  rewrite Ht' in Ht''. injection Ht'' as <-. rewrite Ht'.
  cbn [session_after].
  split; [exact Hcols|]. split; [exact Hlen|]. split; [exact Hwf'|]. split; [|auto].
  unfold df_empty. rewrite !bool_decide_eq_false_2; [reflexivity| |].
  - intros Hnil. apply (elem_of_nil "Work Email"). rewrite <- Hnil.
    apply Hcols. right. right. left.
  - intros Hnil. rewrite Hnil in Hlen. discriminate.
Qed.

(** C7: over any sequence of "Add Employee" runs with valid forms, starting
    from a table the form can be reached from (tab1's guard stops every run
    on an empty table, so only a non-empty table reaches the add handler):
    the columns are the table's columns united with the form's columns of
    every append, every row has a cell for every column, the table grows by
    one row per append, the existing rows keep their cells and get null for
    the new columns, and the row of the [i]-th append (the last one at the
    time) holds that form's values and null for the columns the form
    lacks. *)
Theorem add_runs_keep_union (t : table) (fs : list form) :
  wf t -> df_empty t = false ->
  Forall (fun f => required_missing f = false) fs ->
  let t' := add_runs t fs in
  (forall c, c ∈ columns t' <-> c ∈ columns t \/ (fs <> [] /\ c ∈ form_keys)) /\
  wf t' /\
  length (rows t') = length (rows t) + length fs /\
  (forall j r c, rows t !! j = Some r ->
     lookup_cell t' j c = if bool_decide (c ∈ columns t) then r !! c
                          else if bool_decide (c ∈ columns t') then Some VNull
                          else None) /\
  (forall i f c, fs !! i = Some f ->
     lookup_cell t' (length (rows t) + i) c =
       if bool_decide (c ∈ form_keys) then form_value f c
       else if bool_decide (c ∈ columns t') then Some VNull else None).
Proof.
  revert t. induction fs as [|f fs IH]; intros t Hwf Hne Hfs; cbv zeta.
  - cbn [add_runs length]. split; [intros c; naive_solver|].
    split; [exact Hwf|]. split; [lia|]. split.
    + intros j r c Hr. unfold lookup_cell. rewrite Hr. cbn [mbind option_bind].
      pose proof (wf_row t j r c Hwf Hr) as Hd.
      destruct (decide (c ∈ columns t)) as [Hin|Hin].
      * by rewrite bool_decide_eq_true_2.
      * rewrite !bool_decide_eq_false_2 by done.
        destruct (r !! c) eqn:E; [|reflexivity].
        exfalso. apply Hin, Hd. by eexists.
    + intros i g c Hi. by rewrite lookup_nil in Hi.
  - apply Forall_cons in Hfs as [Hf Hfs].
    destruct (add_run_step t f Hwf Hf Hne) as (Hc1 & Hl1 & Hw1 & Hne1 & Hold1 & Hnew1).
    cbn [add_runs].
    set (t1 := after_run t (add_run t f)) in *.
    destruct (IH t1 Hw1 Hne1 Hfs) as (Hc2 & Hw2 & Hl2 & Hold2 & Hnew2).
    set (t2 := add_runs t1 fs) in *.
    assert (Hsub : forall c, c ∈ columns t1 -> c ∈ columns t2)
      by (intros c Hc; apply Hc2; by left).
    split; [|split; [exact Hw2|split; [cbn [length]; lia|split]]].
    + intros c. rewrite Hc2, Hc1. split; [naive_solver|].
      intros [H|[_ H]]; left; [by left|by right].
    + intros j r c Hr.
      assert (Hj : j < length (rows t1)) by (apply lookup_lt_Some in Hr; lia).
      destruct (lookup_lt_is_Some_2 _ _ Hj) as [r1 Hr1].
      rewrite (Hold2 j r1 c Hr1).
      assert (E1 : r1 !! c = lookup_cell t1 j c) by (unfold lookup_cell; by rewrite Hr1).
      rewrite E1, (Hold1 j r c Hr).
      pose proof (Hc1 c). pose proof (Hsub c).
      repeat case_bool_decide; naive_solver.
    + intros [|i] g c Hi.
      * cbn [lookup list_lookup] in Hi. injection Hi as <-.
        rewrite Nat.add_0_r.
        assert (Hj : length (rows t) < length (rows t1)) by lia.
        destruct (lookup_lt_is_Some_2 _ _ Hj) as [r1 Hr1].
        rewrite (Hold2 _ r1 c Hr1).
        assert (E1 : r1 !! c = lookup_cell t1 (length (rows t)) c)
          by (unfold lookup_cell; by rewrite Hr1).
        rewrite E1, (Hnew1 c).
        pose proof (Hc1 c). pose proof (Hsub c).
        repeat case_bool_decide; naive_solver.
      * cbn [lookup list_lookup] in Hi.
        replace (length (rows t) + S i) with (length (rows t1) + i) by lia.
        exact (Hnew2 i g c Hi).
Qed.

Lemma add_runs_keep_union_witness :
  length (rows (add_runs sample_table
                  [sample_form; mk_form "Cy" "c@x.com" (fun _ => FText "")])) = 4.
Proof.
  destruct (add_runs_keep_union sample_table
              [sample_form; mk_form "Cy" "c@x.com" (fun _ => FText "")])
    as (_ & _ & Hlen & _).
  - exact sample_table_wf.
  - reflexivity.
  - repeat constructor.
  - exact Hlen.
Defined.

(** ** Lemmas about the further dashboard code *)

Lemma unique_from_elem (seen vs : list value) x :
  x ∈ unique_from seen vs <-> x ∈ vs /\ x ∉ seen.
Proof.
  revert seen. induction vs as [|v vs IH]; intros seen; cbn [unique_from].
  - split; [intros H; by apply not_elem_of_nil in H|intros [H _]; by apply not_elem_of_nil in H].
  - case_bool_decide as Hv.
    + rewrite IH, elem_of_cons. split; [naive_solver|].
      intros [[->|?] ?]; naive_solver.
    + rewrite elem_of_cons, IH, !elem_of_cons. split.
      * intros [->|[Hx Hn]]; [by split; [left|]|]. split; [by right|]. intros Hs. apply Hn. by right.
      * intros [[->|Hx] Hn]; [by left|].
        destruct (decide (x = v)) as [->|Hne]; [by left|]. right. split; [done|].
        intros [?|?]; done.
Qed.

Lemma unique_from_NoDup (seen vs : list value) : NoDup (unique_from seen vs).
Proof.
  revert seen. induction vs as [|v vs IH]; intros seen; cbn [unique_from].
  - constructor.
  - case_bool_decide; [apply IH|]. constructor; [|apply IH].
    rewrite unique_from_elem, elem_of_cons. naive_solver.
Qed.

Lemma unique_from_length (seen vs : list value) : length (unique_from seen vs) <= length vs.
Proof.
  revert seen. induction vs as [|v vs IH]; intros seen; cbn [unique_from length]; [lia|].
  case_bool_decide; [specialize (IH seen); lia|]. cbn [length]. specialize (IH (v :: seen)). lia.
Qed.

Lemma unique_from_length_eq (seen vs : list value) :
  length (unique_from seen vs) = length vs -> NoDup vs /\ forall x, x ∈ vs -> x ∉ seen.
Proof.
  revert seen. induction vs as [|v vs IH]; intros seen; cbn [unique_from length].
  - intros _. split; [constructor|]. intros x Hx. by apply not_elem_of_nil in Hx.
  - case_bool_decide as Hv.
    + pose proof (unique_from_length seen vs). lia.
    + cbn [length]. intros Hl. destruct (IH (v :: seen)) as [Hnd Hout]; [lia|].
      split.
      * constructor; [|done]. intros Hin. apply (Hout v Hin). by left.
      * intros x Hx. apply elem_of_cons in Hx as [->|Hx]; [done|].
        intros Hs. apply (Hout x Hx). by right.
Qed.

Lemma unique_from_id (seen vs : list value) :
  NoDup vs -> (forall x, x ∈ vs -> x ∉ seen) -> unique_from seen vs = vs.
Proof.
  revert seen. induction vs as [|v vs IH]; intros seen Hnd Hout; cbn [unique_from]; [done|].
  apply NoDup_cons in Hnd as [Hv Hnd].
  rewrite bool_decide_eq_false_2 by (apply Hout; by left). f_equal. apply IH; [done|].
  intros x Hx. rewrite elem_of_cons. intros [->|Hs]; [done|]. apply (Hout x); [by right|done].
Qed.

Lemma pd_unique_length_eq (vs : list value) :
  length (pd_unique vs) = length vs <-> NoDup vs.
Proof.
  unfold pd_unique. split.
  - intros H. by apply unique_from_length_eq in H as [? _].
  - intros H. rewrite unique_from_id; [done|done|]. intros x _ Hx. by apply not_elem_of_nil in Hx.
Qed.

Lemma insert_by_perm {A} (leb : A -> A -> bool) x (l : list A) : insert_by leb x l ≡ₚ x :: l.
Proof.
  induction l as [|y l IH]; cbn [insert_by]; [done|].
  destruct (leb x y); [done|]. rewrite IH. apply perm_swap.
Qed.

Lemma sort_by_perm {A} (leb : A -> A -> bool) (l : list A) : sort_by leb l ≡ₚ l.
Proof.
  unfold sort_by. induction l as [|x l IH]; cbn [fold_right]; [done|].
  rewrite insert_by_perm, IH. done.
Qed.

Lemma py_sorted_perm (vs vs' : list value) : py_sorted vs = Some vs' -> vs' ≡ₚ vs.
Proof.
  unfold py_sorted. destruct vs as [|v vs0].
  - intros H. injection H as <-. done.
  - destruct (forallb _ _); [|discriminate]. intros H. injection H as <-. exact (sort_by_perm value_leb (v :: vs0)).
Qed.

Lemma length_filter_le {A} (f : A -> bool) (l : list A) : length (List.filter f l) <= length l.
Proof. induction l as [|x l IH]; cbn [List.filter length]; [lia|]. destruct (f x); cbn [length]; lia. Qed.

Lemma column_values_length t c : length (column_values t c) = length (rows t).
Proof. unfold column_values. apply length_map. Qed.

Lemma count_recent_le cutoff (vs : list value) n :
  count_recent cutoff vs = Some n -> n <= length vs.
Proof.
  revert n. induction vs as [|v vs IH]; intros n; cbn [count_recent length].
  - intros H. injection H as <-. lia.
  - destruct (recent_cell cutoff v) as [b|]; [|discriminate].
    destruct (count_recent cutoff vs) as [m|]; [|discriminate].
    intros H. injection H as <-. specialize (IH m eq_refl). destruct b; lia.
Qed.

Lemma class_count_eq t c :
  class_count t c =
  if has_column t c then length (pd_unique (List.filter notna (column_values t c))) else 0.
Proof.
  unfold class_count. destruct (has_column t c); [|done]. cbv zeta.
  destruct (List.filter notna (column_values t c)); reflexivity.
Qed.

Lemma class_count_le_rows t c : class_count t c <= length (rows t).
Proof.
  rewrite class_count_eq. destruct (has_column t c); [|lia].
  etrans; [apply unique_from_length|]. etrans; [apply length_filter_le|].
  by rewrite column_values_length.
Qed.

(** Extra X1: the later revision's [compute_metrics], when it returns,
    reports the row count as the employee total, none of the other three
    metrics exceeds that total, and a metric whose column is missing is 0. *)
Lemma compute_metrics_fixed_bounds t cutoff total recent bootcamp vilt :
  compute_metrics_fixed t cutoff = Some (total, recent, bootcamp, vilt) ->
  total = length (rows t) /\ recent <= total /\ bootcamp <= total /\ vilt <= total /\
  (has_column t "Hire Date" = false -> recent = 0) /\
  (has_column t "Boot Camp In-Person" = false -> bootcamp = 0) /\
  (has_column t "VILT" = false -> vilt = 0).
Proof.
  unfold compute_metrics_fixed. destruct (recent_hires t cutoff) as [n|] eqn:Hr; [|discriminate].
  intros H. injection H as <- <- <- <-.
  assert (Hn : n <= length (rows t)).
  { unfold recent_hires in Hr. destruct (has_column t "Hire Date").
    - rewrite <- (column_values_length t "Hire Date"). by apply (count_recent_le cutoff).
    - injection Hr as <-. lia. }
  repeat split; try lia; try apply class_count_le_rows.
  - intros Hc. unfold recent_hires in Hr. rewrite Hc in Hr. by injection Hr as <-.
  - intros Hc. unfold class_count. by rewrite Hc.
  - intros Hc. unfold class_count. by rewrite Hc.
Qed.

Lemma compute_metrics_fixed_bounds_witness :
  compute_metrics_fixed sample_table 0 = Some (2, 0, 0, 0) /\
  2 = length (rows sample_table) /\ 0 <= 2 /\ 0 <= 2 /\ 0 <= 2 /\
  (has_column sample_table "Hire Date" = false -> 0 = 0) /\
  (has_column sample_table "Boot Camp In-Person" = false -> 0 = 0) /\
  (has_column sample_table "VILT" = false -> 0 = 0).
Proof.
  split; [reflexivity|]. apply (compute_metrics_fixed_bounds sample_table 0). reflexivity.
Defined.

(** Extra X2: for the Boot Camp and VILT tiles the later revision counts the
    distinct non-null values where the original revision counts the non-null
    cells: the later count never exceeds the original one, and both agree
    exactly when the column is missing or its non-null cells are pairwise
    distinct. *)
Lemma class_count_le_completed t c :
  class_count t c <= completed_count t c /\
  (class_count t c = completed_count t c <->
   has_column t c = false \/ NoDup (List.filter notna (column_values t c))).
Proof.
  rewrite class_count_eq. unfold completed_count.
  destruct (has_column t c).
  - split; [apply unique_from_length|].
    rewrite (pd_unique_length_eq (List.filter notna (column_values t c))).
    split; [by right|]. intros [H|H]; [discriminate|done].
  - split; [lia|]. split; [by left|done].
Qed.

Lemma row_get_insert (r : row) c c' x :
  row_get (<[c:=x]> r) c' = if bool_decide (c = c') then x else row_get r c'.
Proof.
  unfold row_get. case_bool_decide.
  - subst. by rewrite lookup_insert_eq.
  - by rewrite lookup_insert_ne.
Qed.

Lemma coerce_date_kind to_dt v :
  coerce_date to_dt v = VNull \/
  exists d, coerce_date to_dt v = VDate d \/ coerce_date to_dt v = VDateTz d.
Proof.
  destruct v; cbn [coerce_date]; eauto.
  all: destruct (to_dt _) as [[d|d]|]; eauto.
Qed.

(** The columns named in [S] that the table has hold only nulls and dates. *)
Lemma coerce_step to_dt (S : list string) c (t : table) :
  (forall c', c' ∈ S -> has_column t c' = true ->
     Forall (fun v => v = VNull \/ exists d, v = VDate d \/ v = VDateTz d) (column_values t c')) ->
  forall c', c' ∈ c :: S ->
    has_column (if has_column t c then coerce_column to_dt c t else t) c' = true ->
    Forall (fun v => v = VNull \/ exists d, v = VDate d \/ v = VDateTz d)
      (column_values (if has_column t c then coerce_column to_dt c t else t) c').
Proof.
  intros Hinv c' Hc'. destruct (has_column t c) eqn:Hhc.
  - intros Hh. unfold column_values, coerce_column. cbn [rows].
    rewrite map_map. apply Forall_forall. intros v Hv.
    apply list_elem_of_In, in_map_iff in Hv as [r [<- Hr]]. rewrite row_get_insert.
    case_bool_decide; [apply coerce_date_kind|].
    apply elem_of_cons in Hc' as [->|Hc']; [congruence|].
    specialize (Hinv c' Hc' Hh). unfold column_values in Hinv.
    rewrite Forall_forall in Hinv. apply Hinv, list_elem_of_In, in_map_iff. eauto.
  - intros Hh. apply elem_of_cons in Hc' as [->|Hc']; [congruence|]. by apply Hinv.
Qed.

Lemma coerce_fold to_dt (date_cols S : list string) (t : table) :
  (forall c', c' ∈ S -> has_column t c' = true ->
     Forall (fun v => v = VNull \/ exists d, v = VDate d \/ v = VDateTz d) (column_values t c')) ->
  let t' := fold_left (fun df c => if has_column df c then coerce_column to_dt c df else df)
              date_cols t in
  columns t' = columns t /\ length (rows t') = length (rows t) /\
  forall c', c' ∈ S ++ date_cols -> has_column t' c' = true ->
    Forall (fun v => v = VNull \/ exists d, v = VDate d \/ v = VDateTz d) (column_values t' c').
Proof.
  revert S t. induction date_cols as [|c cols IH]; intros S t Hinv; cbn zeta.
  - cbn [fold_left]. rewrite app_nil_r. auto.
  - cbn [fold_left].
    set (t1 := if has_column t c then coerce_column to_dt c t else t).
    assert (Hc1 : columns t1 = columns t /\ length (rows t1) = length (rows t)).
    { unfold t1. destruct (has_column t c); [|done]. cbn. by rewrite length_map. }
    destruct Hc1 as [Hc1 Hl1].
    destruct (IH (c :: S) t1 (coerce_step to_dt S c t Hinv)) as (Hcol & Hlen & Hall).
    split; [congruence|]. split; [congruence|].
    intros c' Hc' Hh. apply Hall; [|done].
    rewrite elem_of_app, elem_of_cons. rewrite elem_of_app, elem_of_cons in Hc'. tauto.
Qed.

Lemma process_uploaded_file_inl date_cols read to_dt name t :
  process_uploaded_file date_cols read to_dt name = inl t ->
  exists rd df, reader_of (file_extension name) = Some rd /\ read rd = inl df /\
    columns t = map py_strip (columns df) /\ length (rows t) = length (rows df) /\
    forall c, c ∈ date_cols -> has_column t c = true ->
      Forall (fun v => v = VNull \/ exists d, v = VDate d \/ v = VDateTz d) (column_values t c).
Proof.
  unfold process_uploaded_file. cbn zeta.
  destruct (reader_of (file_extension name)) as [rd|]; [|discriminate].
  destruct (read rd) as [df|e] eqn:Hread; [|discriminate].
  intros H. injection H as <-. exists rd, df. split; [done|]. split; [done|].
  destruct (coerce_fold to_dt date_cols [] (strip_columns df)) as (Hcol & Hlen & Hall).
  { intros c' Hc'. by apply not_elem_of_nil in Hc'. }
  split; [rewrite Hcol; done|]. split.
  - rewrite Hlen. unfold strip_columns. cbn. by rewrite length_map.
  - intros c Hc. apply Hall. by rewrite elem_of_app; right.
Qed.










Lemma in_column_values t c v :
  v ∈ column_values t c <-> exists r, r ∈ rows t /\ row_get r c = v.
Proof.
  unfold column_values. rewrite list_elem_of_In, in_map_iff.
  split; intros [r [H1 H2]]; exists r; rewrite ?list_elem_of_In in *; tauto.
Qed.

Lemma filter_options_spec t c opts :
  filter_options t c = Some opts ->
  (forall v, v ∈ opts <-> has_column t c = true /\ v ∈ column_values t c /\ notna v = true) /\
  NoDup opts /\ length opts <= length (pd_unique (List.filter notna (column_values t c))).
Proof.
  unfold filter_options. destruct (has_column t c && Nat.ltb 0 (length (rows t))) eqn:E.
  - apply andb_true_iff in E as [Hc _]. intros Hs. apply py_sorted_perm in Hs.
    split; [|split].
    + intros v. rewrite Hs. unfold pd_unique. rewrite unique_from_elem.
      rewrite (list_elem_of_In (List.filter _ _)), List.filter_In, <- list_elem_of_In.
      split; [intros [[? ?] _]; tauto|intros (_ & ? & ?); split; [tauto|apply not_elem_of_nil]].
    + rewrite Hs. apply unique_from_NoDup.
    + by rewrite Hs.
  - intros H. injection H as <-. split; [|split; [constructor|cbn; lia]].
    intros v. split; [intros Hv; by apply not_elem_of_nil in Hv|].
    intros (Hc & Hv & _). apply andb_false_iff in E as [E|E]; [congruence|].
    apply in_column_values in Hv as (r & Hr & _).
    destruct (rows t) as [|r0 rs]; [by apply not_elem_of_nil in Hr|discriminate].
Qed.

Lemma pred_default t c opts r :
  r ∈ rows t -> filter_options t c = Some opts ->
  bool_decide (pred_holds t r (c, opts)) =
  negb (has_column t c && existsb notna (column_values t c)) || notna (row_get r c).
Proof.
  intros Hr Ho. destruct (filter_options_spec t c opts Ho) as (Hm & _ & _).
  destruct opts as [|v0 opts'].
  - rewrite bool_decide_eq_true_2 by (intros H; by cbn in H).
    destruct (has_column t c && existsb notna (column_values t c)) eqn:E; [|done].
    apply andb_true_iff in E as [Hc E]. apply existsb_exists in E as (v & Hv & Hn).
    exfalso. apply (not_elem_of_nil v), Hm. rewrite list_elem_of_In. tauto.
  - assert (Hv0 := proj1 (Hm v0) ltac:(apply elem_of_cons; by left)). destruct Hv0 as (Hc & Hv0 & Hn0).
    assert (Hex : existsb notna (column_values t c) = true).
    { apply existsb_exists. exists v0. rewrite <- list_elem_of_In. done. }
    rewrite Hc, Hex. cbn [andb negb orb].
    assert (Hcol : c ∈ columns t) by (unfold has_column in Hc; by apply bool_decide_eq_true_1 in Hc).
    case_bool_decide as Hp.
    + destruct (Hp ltac:(done) Hcol) as (w & Hw & Iw). cbn in Hw.
      unfold row_get. rewrite Hw. cbn [default]. by apply Hm in Iw as (_ & _ & ?).
    + destruct (notna (row_get r c)) eqn:Hn; [exfalso|done].
      apply Hp. intros _ _. cbn. exists (row_get r c). split.
      * unfold row_get in *. destruct (r !! c); [done|discriminate].
      * apply Hm. split; [done|]. split; [|done]. apply in_column_values. eauto.
Qed.

Lemma default_selection_small capped opts :
  length opts <= 20 -> default_selection capped opts = opts.
Proof.
  intros H. unfold default_selection. apply Nat.leb_le in H. rewrite H.
  by rewrite andb_false_r.
Qed.

(** Extra X6: at their default selection, with at most twenty distinct
    non-null values in each of Region, Role and Business Unit, the sidebar
    filters keep the table's columns and exactly the rows that hold a
    non-null value in every filter column the table has where some row holds
    one: a row with a blank region, role, business unit or employee type is
    hidden although no filter was touched. *)
Lemma dashboard_default_filter t t' :
  (forall c, c ∈ ["Region"; "Role"; "Business Unit"] ->
     length (pd_unique (List.filter notna (column_values t c))) <= 20) ->
  dashboard_filtered t = Some t' ->
  columns t' = columns t /\
  rows t' = List.filter (fun r => forallb (fun c =>
              negb (has_column t c && existsb notna (column_values t c)) || notna (row_get r c))
              filter_columns) (rows t).
Proof.
  intros Hcap. unfold dashboard_filtered.
  destruct (filter_options t "Region") as [o1|] eqn:E1; [|discriminate].
  destruct (filter_options t "Role") as [o2|] eqn:E2; [|discriminate].
  destruct (filter_options t "Business Unit") as [o3|] eqn:E3; [|discriminate].
  destruct (filter_options t "Employee Type") as [o4|] eqn:E4; [|discriminate].
  intros H. injection H as <-.
  assert (L : forall c o, c ∈ ["Region"; "Role"; "Business Unit"] ->
            filter_options t c = Some o -> default_selection true o = o).
  { intros c o Hc Ho. apply default_selection_small.
    destruct (filter_options_spec t c o Ho) as (_ & _ & Hl). specialize (Hcap c Hc). lia. }
  rewrite (L "Region" o1), (L "Role" o2), (L "Business Unit" o3) by (done || set_solver).
  unfold apply_filters_fast. cbn zeta. cbn [columns rows]. split; [done|].
  apply List.filter_ext_in. intros r Hr. apply list_elem_of_In in Hr.
  rewrite !mask_step_spec.
  rewrite (pred_default t "Region" o1), (pred_default t "Role" o2),
    (pred_default t "Business Unit" o3) by done.
  unfold default_selection at 1. cbn [andb].
  rewrite (pred_default t "Employee Type" o4) by done.
  cbn [filter_columns forallb]. btauto.
Qed.

Lemma dashboard_default_filter_witness :
  (forall c, c ∈ ["Region"; "Role"; "Business Unit"] ->
     length (pd_unique (List.filter notna (column_values filter_table c))) <= 20) /\
  dashboard_filtered filter_table = Some (default (mk_table [] []) (dashboard_filtered filter_table)) /\
  columns (default (mk_table [] []) (dashboard_filtered filter_table)) = columns filter_table /\
  rows (default (mk_table [] []) (dashboard_filtered filter_table)) =
    List.filter (fun r => forallb (fun c =>
      negb (has_column filter_table c && existsb notna (column_values filter_table c)) ||
      notna (row_get r c)) filter_columns) (rows filter_table).
Proof.
  assert (Hcap : forall c, c ∈ ["Region"; "Role"; "Business Unit"] ->
     length (pd_unique (List.filter notna (column_values filter_table c))) <= 20).
  { intros c Hc. repeat (apply elem_of_cons in Hc as [->|Hc]; [vm_compute; lia|]).
    by apply not_elem_of_nil in Hc. }
  assert (Hd : dashboard_filtered filter_table =
    Some (default (mk_table [] []) (dashboard_filtered filter_table))) by (vm_compute; reflexivity).
  split; [exact Hcap|]. split; [exact Hd|].
  exact (dashboard_default_filter filter_table _ Hcap Hd).
Defined.

(** Extra X7: when Region, Role or Business Unit has more than twenty
    distinct non-null values, the default selection keeps only the first
    twenty options, so before any filter is touched the dashboard hides a
    row: one whose value is the twenty-first option. *)
Lemma dashboard_default_filter_cap t t' c opts :
  c ∈ ["Region"; "Role"; "Business Unit"] ->
  filter_options t c = Some opts -> 20 < length opts ->
  dashboard_filtered t = Some t' ->
  exists r, r ∈ rows t /\ opts !! 20 = Some (row_get r c) /\ notna (row_get r c) = true /\
            r ∉ rows t'.
Proof.
  intros Hc Ho Hlen Hd.
  destruct (filter_options_spec t c opts Ho) as (Hm & Hnd & _).
  destruct (lookup_lt_is_Some_2 opts 20 Hlen) as [v Hv].
  assert (Hvin : v ∈ opts) by (by eapply list_elem_of_lookup_2).
  destruct (proj1 (Hm v) Hvin) as (Hhc & Hvc & Hnv).
  apply in_column_values in Hvc as (r & Hr & Hrv).
  exists r. split; [done|]. rewrite Hrv. split; [done|]. split; [done|].
  assert (Hnt : v ∉ take 20 opts).
  { intros Ht. apply list_elem_of_lookup_1 in Ht as [i Hi].
    apply lookup_take_Some in Hi as [Hi Hlt].
    assert (i = 20) by (eapply NoDup_lookup; eauto). lia. }
  assert (Hsel : default_selection true opts = take 20 opts).
  { unfold default_selection. cbn [andb]. destruct (Nat.leb (length opts) 20) eqn:E; [|done].
    apply Nat.leb_le in E. lia. }
  assert (Hpred : bool_decide (pred_holds t r (c, default_selection true opts)) = false).
  { rewrite Hsel. apply bool_decide_eq_false_2. intros Hp. cbn in Hp.
    assert (Hne : take 20 opts <> []).
    { intros He. apply (f_equal length) in He. rewrite length_take in He. cbn [length] in He. lia. }
    assert (Hcol : c ∈ columns t) by (by apply bool_decide_eq_true_1 in Hhc).
    destruct (Hp Hne Hcol) as (w & Hw & Iw). simpl in Hw. unfold row_get in Hrv. rewrite Hw in Hrv.
    cbn in Hrv. subst w. done. }
  revert Hd. unfold dashboard_filtered.
  destruct (filter_options t "Region") as [o1|] eqn:E1; [|discriminate].
  destruct (filter_options t "Role") as [o2|] eqn:E2; [|discriminate].
  destruct (filter_options t "Business Unit") as [o3|] eqn:E3; [|discriminate].
  destruct (filter_options t "Employee Type") as [o4|] eqn:E4; [|discriminate].
  intros H. injection H as <-. unfold apply_filters_fast. cbn zeta. cbn [rows].
  rewrite list_elem_of_In, List.filter_In. intros [_ Hmask].
  rewrite !mask_step_spec in Hmask. rewrite !andb_true_iff in Hmask.
  destruct Hmask as ((((_ & HA) & HB) & HC) & _).
  apply elem_of_cons in Hc as [->|Hc].
  { rewrite E1 in Ho. injection Ho as ->. by rewrite HA in Hpred. }
  apply elem_of_cons in Hc as [->|Hc].
  { rewrite E2 in Ho. injection Ho as ->. by rewrite HB in Hpred. }
  apply elem_of_cons in Hc as [->|Hc].
  { rewrite E3 in Ho. injection Ho as ->. by rewrite HC in Hpred. }
  by apply not_elem_of_nil in Hc.
Qed.

Lemma dashboard_default_filter_cap_witness :
  "Region" ∈ ["Region"; "Role"; "Business Unit"] /\
  filter_options region_table "Region" = Some (default [] (filter_options region_table "Region")) /\
  20 < length (default [] (filter_options region_table "Region")) /\
  dashboard_filtered region_table = Some (default (mk_table [] []) (dashboard_filtered region_table)) /\
  exists r, r ∈ rows region_table /\
    default [] (filter_options region_table "Region") !! 20 = Some (row_get r "Region") /\
    notna (row_get r "Region") = true /\
    r ∉ rows (default (mk_table [] []) (dashboard_filtered region_table)).
Proof.
  assert (Hc : "Region" ∈ ["Region"; "Role"; "Business Unit"]) by set_solver.
  assert (Ho : filter_options region_table "Region" =
    Some (default [] (filter_options region_table "Region"))) by (vm_compute; reflexivity).
  assert (Hl : 20 < length (default [] (filter_options region_table "Region")))
    by (vm_compute; lia).
  assert (Hd : dashboard_filtered region_table =
    Some (default (mk_table [] []) (dashboard_filtered region_table))) by (vm_compute; reflexivity).
  split; [exact Hc|]. split; [exact Ho|]. split; [exact Hl|]. split; [exact Hd|].
  exact (dashboard_default_filter_cap region_table _ "Region" _ Hc Ho Hl Hd).
Defined.

Lemma str_index_sound x (l : list string) i : str_index x l = Some i -> l !! i = Some x.
Proof.
  revert i. induction l as [|y l IH]; intros i; cbn [str_index]; [discriminate|].
  destruct (String.eqb_spec x y) as [->|Hne].
  - intros H. by injection H as <-.
  - destruct (str_index x l) as [j|] eqn:E; cbn; [|discriminate].
    intros H. injection H as <-. by apply IH.
Qed.

Lemma str_index_complete x (l : list string) : x ∈ l -> exists i, str_index x l = Some i.
Proof.
  induction l as [|y l IH]; intros H; [by apply not_elem_of_nil in H|]. cbn [str_index].
  destruct (String.eqb_spec x y) as [->|Hne]; [by eexists|].
  apply elem_of_cons in H as [->|H]; [done|].
  destruct (IH H) as [j ->]. by eexists.
Qed.

Section Dropdown_lemmas.

Variable num_str : Z -> string.
Variable date_str : bool -> Z -> string.
Variable null_str : string.

Local Abbreviation py_str := (py_str num_str date_str null_str).
Local Abbreviation get_dropdown_options := (get_dropdown_options num_str date_str null_str).
Local Abbreviation get_dropdown_index := (get_dropdown_index num_str date_str null_str).
Local Abbreviation dropdown_value := (dropdown_value num_str date_str null_str).
Local Abbreviation text_default := (text_default num_str date_str null_str).

Lemma dropdown_options_head t c v : get_dropdown_options t c v !! 0 = Some "".
Proof.
  unfold get_dropdown_options. destruct (negb (has_column t c)); [done|]. cbn zeta.
  destruct (py_truthy v && _); [destruct (String.eqb _ _)|]; done.
Qed.

Lemma dropdown_options_base t c v s :
  has_column t c = true ->
  s ∈ "" :: sort_by String.leb
           (List.filter (fun s => negb (strip_is_empty s))
              (map py_str (pd_unique (List.filter notna (column_values t c))))) ->
  s ∈ get_dropdown_options t c v.
Proof.
  intros Hc Hs. unfold get_dropdown_options. rewrite Hc. cbn [negb]. cbn zeta.
  destruct (py_truthy v && _); [destruct (String.eqb _ _)|]; try done.
  apply elem_of_app. by left.
Qed.

Lemma dropdown_options_column t c v w :
  has_column t c = true -> w ∈ column_values t c -> notna w = true ->
  strip_is_empty (py_str w) = false -> py_str w ∈ get_dropdown_options t c v.
Proof.
  intros Hc Hw Hn Hb. apply dropdown_options_base; [done|]. apply elem_of_cons. right.
  rewrite (sort_by_perm String.leb). rewrite list_elem_of_In, List.filter_In.
  rewrite Hb. split; [|done]. apply in_map. rewrite <- list_elem_of_In.
  unfold pd_unique. apply unique_from_elem. split; [|apply not_elem_of_nil].
  rewrite list_elem_of_In, List.filter_In, <- list_elem_of_In. done.
Qed.

Lemma dropdown_options_current t c v :
  has_column t c = true -> py_truthy v = true -> py_str v ∈ get_dropdown_options t c v.
Proof.
  intros Hc Ht. destruct v as [|s|z|d|d]; [discriminate| | | |].
  all: unfold get_dropdown_options; rewrite Hc, Ht; cbn [negb andb notna]; cbn zeta.
  - assert (Hs : py_str (VStr s) = s) by reflexivity. rewrite Hs.
    destruct (value_in_strings (VStr s) _) eqn:Hin; cbn [negb].
    + cbn in Hin. by apply bool_decide_eq_true_1 in Hin.
    + destruct (String.eqb_spec s "") as [->|]; [by apply elem_of_cons; left|].
      apply elem_of_app. right. by apply elem_of_cons; left.
  - destruct (String.eqb_spec (py_str (VNum z)) "") as [->|]; [by apply elem_of_cons; left|].
    apply elem_of_app. right. by apply elem_of_cons; left.
  - destruct (String.eqb_spec (py_str (VDate d)) "") as [->|]; [by apply elem_of_cons; left|].
    apply elem_of_app. right. by apply elem_of_cons; left.
  - destruct (String.eqb_spec (py_str (VDateTz d)) "") as [->|]; [by apply elem_of_cons; left|].
    apply elem_of_app. right. by apply elem_of_cons; left.
Qed.

End Dropdown_lemmas.

Lemma text_default_notna num_str date_str null_str v :
  notna v = true -> text_default num_str date_str null_str v = py_str num_str date_str null_str v.
Proof. unfold text_default. by intros ->. Qed.

Lemma text_default_null num_str date_str null_str v :
  notna v = false -> text_default num_str date_str null_str v = "".
Proof. unfold text_default. by intros ->. Qed.

Lemma dropdown_value_current num_str date_str null_str t c v :
  has_column t c = true ->
  (notna v = true -> v <> VStr "" ->
   py_truthy v = true \/
   (v ∈ column_values t c /\ strip_is_empty (py_str num_str date_str null_str v) = false)) ->
  dropdown_value num_str date_str null_str t c v = text_default num_str date_str null_str v.
Proof.
  intros Hc H. unfold dropdown_value, get_dropdown_index, selectbox. cbn zeta.
  destruct (notna v) eqn:Hn; cbn [negb].
  - case_bool_decide as He.
    + subst v. rewrite dropdown_options_head. reflexivity.
    + assert (Hin : py_str num_str date_str null_str v ∈
                    get_dropdown_options num_str date_str null_str t c v).
      { destruct (H eq_refl He) as [Ht|[Hw Hb]].
        - by apply dropdown_options_current.
        - by apply dropdown_options_column. }
      destruct (str_index_complete _ _ Hin) as [i Hi]. rewrite Hi.
      apply str_index_sound in Hi. rewrite Hi. cbn [default]. by rewrite text_default_notna.
  - rewrite dropdown_options_head, text_default_null by done. reflexivity.
Qed.

Lemma preferred_name_not_form_field : "Preferred Name" ∉ form_fields.
Proof.
  unfold form_fields. intros Hin.
  repeat (apply elem_of_cons in Hin as [Hin|Hin]; [discriminate|]).
  by apply not_elem_of_nil in Hin.
Qed.

Lemma form_value_field f c :
  c ∈ form_fields -> form_value f c = Some (field_value (field_of f c)).
Proof.
  intros Hc. unfold form_value, record_of_form. cbn [dict_get].
  destruct (String.eqb_spec c "Preferred Name") as [->|_].
  { by apply preferred_name_not_form_field in Hc. }
  destruct (String.eqb_spec c "Work Email") as [->|_].
  { by apply work_email_not_form_field in Hc. }
  rewrite dict_get_map. by rewrite bool_decide_eq_true_2.
Qed.

Lemma normalize_field_text s : normalize (field_value (FText s)) = normalize (VStr s).
Proof. cbn [field_value]. by destruct (String.eqb_spec s "") as [->|]. Qed.

Lemma widget_kind_dropdown c : c ∈ dropdown_fields -> widget_kind c = WDropdown /\ c ∈ form_fields.
Proof.
  unfold dropdown_fields. intros Hc.
  repeat (apply elem_of_cons in Hc as [->|Hc];
          [split; [reflexivity|refine (bool_decide_eq_true_1 _ _); vm_compute; reflexivity]|]).
  by apply not_elem_of_nil in Hc.
Qed.

Lemma widget_kind_yes_no c : c ∈ yes_no_fields -> widget_kind c = WYesNo /\ c ∈ form_fields.
Proof.
  unfold yes_no_fields. intros Hc.
  repeat (apply elem_of_cons in Hc as [->|Hc];
          [split; [reflexivity|refine (bool_decide_eq_true_1 _ _); vm_compute; reflexivity]|]).
  by apply not_elem_of_nil in Hc.
Qed.

Lemma fixed_select_spec num_str date_str null_str (options : list string) v :
  options !! 0 = Some "" ->
  fixed_select num_str date_str null_str options v =
  if bool_decide (text_default num_str date_str null_str v ∈ options)
  then text_default num_str date_str null_str v else "".
Proof.
  intros H0. unfold fixed_select, selectbox. cbn zeta.
  destruct (str_index (text_default num_str date_str null_str v) options) as [i|] eqn:E.
  - apply str_index_sound in E. rewrite E. cbn [default].
    rewrite bool_decide_eq_true_2; [done|]. by eapply list_elem_of_lookup_2.
  - rewrite H0. cbn [default]. case_bool_decide as Hin; [|done].
    destruct (str_index_complete _ _ Hin) as [i Hi]. congruence.
Qed.

Lemma normalize_fixed_select num_str date_str null_str (options : list string) v :
  options !! 0 = Some "" ->
  normalize (field_value (FText (fixed_select num_str date_str null_str options v))) =
  if bool_decide (text_default num_str date_str null_str v ∈ options)
  then normalize (VStr (text_default num_str date_str null_str v)) else VNull.
Proof.
  intros H0. rewrite fixed_select_spec by done.
  case_bool_decide; [apply normalize_field_text|reflexivity].
Qed.

Lemma edit_fixed_cells t e sel f idx rest :
  required_missing f = false ->
  email_matches (rows t) e = idx :: rest ->
  exists t', edit_submit_fixed t e sel f = Committed t' /\
    forall c v, form_value f c = Some v -> lookup_cell t' idx c = Some (normalize v).
Proof.
  intros Hreq Hm.
  destruct (edit_fixed_found t e sel f idx rest Hreq Hm) as (t' & Hs & _ & Hrows).
  exists t'. split; [done|]. intros c v Hv.
  destruct (lookup_lt_is_Some_2 (rows t) idx (email_matches_head_lt _ _ _ _ Hm)) as [r Hr].
  destruct (Hrows idx r Hr) as (r2 & Hr2 & Hc).
  unfold lookup_cell. rewrite Hr2. cbn. rewrite Hc, decide_True by done.
  by rewrite merged_dict_get, Hv.
Qed.

Lemma initial_form_field num_str date_str null_str date_of to_dt t sel k :
  field_of (initial_form num_str date_str null_str date_of to_dt t sel) k =
  initial_field num_str date_str null_str date_of to_dt t sel k.
Proof. reflexivity. Qed.

Section Edit_form_lemmas.

Variable num_str : Z -> string.
Variable date_str : bool -> Z -> string.
Variable null_str : string.
Variable date_of : Z -> Z.
Variable to_dt : value -> option Z.

Local Abbreviation py_str := (py_str num_str date_str null_str).
Local Abbreviation dropdown_value := (dropdown_value num_str date_str null_str).
Local Abbreviation text_default := (text_default num_str date_str null_str).
Local Abbreviation initial_form := (initial_form num_str date_str null_str date_of to_dt).

(** Extra X8: in the later revision's edit form, a dropdown column's
    selectbox starts on the selected employee's current value as text
    ([str(v)], or the empty option for a null or empty cell), whenever that
    value is not a falsy number whose text is blank. *)
Lemma dropdown_value_roundtrip t sel c :
  sel ∈ rows t -> has_column t c = true ->
  (notna (row_get sel c) = true -> row_get sel c <> VStr "" ->
   py_truthy (row_get sel c) = true \/ strip_is_empty (py_str (row_get sel c)) = false) ->
  dropdown_value t c (row_get sel c) = text_default (row_get sel c).
Proof.
  intros Hsel Hc H. apply dropdown_value_current; [done|].
  intros Hn He. destruct (H Hn He) as [Ht|Hb]; [by left|right].
  split; [|done]. apply in_column_values. eauto.
Qed.

(** Extra X9: in the later revision, saving the edit form untouched writes
    back to the employee's row, in the preferred name, work email, personal
    and every dropdown column, the value as text: a non-blank string is
    kept, a blank string or a null becomes null, and a number or a timestamp
    becomes its [str()] text. *)
Lemma edit_unchanged_text_fields t e sel idx rest :
  email_matches (rows t) e = idx :: rest -> sel ∈ rows t ->
  required_missing (initial_form t sel) = false ->
  exists t', edit_submit_fixed t e sel (initial_form t sel) = Committed t' /\
    forall c, c ∈ "Preferred Name" :: "Work Email" :: "Personal" :: dropdown_fields ->
      has_column t c = true ->
      (notna (row_get sel c) = true -> row_get sel c <> VStr "" ->
       py_truthy (row_get sel c) = true \/ strip_is_empty (py_str (row_get sel c)) = false) ->
      lookup_cell t' idx c = Some (normalize (VStr (text_default (row_get sel c)))).
Proof.
  intros Hm Hsel Hreq.
  destruct (edit_fixed_cells t e sel (initial_form t sel) idx rest Hreq Hm) as (t' & Hs & Hcell).
  exists t'. split; [done|]. intros c Hc Hcol Hh.
  apply elem_of_cons in Hc as [->|Hc]; [by apply Hcell|].
  apply elem_of_cons in Hc as [->|Hc]; [by apply Hcell|].
  apply elem_of_cons in Hc as [->|Hc].
  - rewrite (Hcell _ _ (form_value_field _ "Personal" ltac:(refine (bool_decide_eq_true_1 _ _);
      vm_compute; reflexivity))).
    f_equal. exact (normalize_field_text (text_default (row_get sel "Personal"))).
  - destruct (widget_kind_dropdown c Hc) as [Hw Hf].
    rewrite (Hcell _ _ (form_value_field _ c Hf)).
    rewrite initial_form_field. unfold initial_field. rewrite Hw. rewrite normalize_field_text.
    do 3 f_equal. apply dropdown_value_current; [done|].
    intros Hn He. destruct (Hh Hn He) as [Ht|Hb]; [by left|right].
    split; [|done]. apply in_column_values. eauto.
Qed.

(** Extra X10: in the later revision, saving the edit form untouched keeps
    an Employee Type or Load/Loaded flag only when its text is one of the
    fixed options ("Full Time", "Part Time", "Contract", "Intern"; "Yes",
    "No"); any other value, such as "Full-time" or "Y", is overwritten with
    null. *)
Lemma edit_unchanged_fixed_lists t e sel idx rest :
  email_matches (rows t) e = idx :: rest ->
  required_missing (initial_form t sel) = false ->
  exists t', edit_submit_fixed t e sel (initial_form t sel) = Committed t' /\
    lookup_cell t' idx "Employee Type" =
      Some (if bool_decide (text_default (row_get sel "Employee Type") ∈ employee_type_options)
            then normalize (VStr (text_default (row_get sel "Employee Type"))) else VNull) /\
    forall c, c ∈ yes_no_fields ->
      lookup_cell t' idx c =
        Some (if bool_decide (text_default (row_get sel c) ∈ yes_no_options)
              then normalize (VStr (text_default (row_get sel c))) else VNull).
Proof.
  intros Hm Hreq.
  destruct (edit_fixed_cells t e sel (initial_form t sel) idx rest Hreq Hm) as (t' & Hs & Hcell).
  exists t'. split; [done|]. split.
  - rewrite (Hcell _ _ (form_value_field _ "Employee Type" ltac:(refine (bool_decide_eq_true_1 _ _);
      vm_compute; reflexivity))).
    rewrite initial_form_field. f_equal. by apply normalize_fixed_select.
  - intros c Hc. destruct (widget_kind_yes_no c Hc) as [Hw Hf].
    rewrite (Hcell _ _ (form_value_field _ c Hf)).
    rewrite initial_form_field. unfold initial_field. rewrite Hw.
    f_equal. by apply normalize_fixed_select.
Qed.

End Edit_form_lemmas.

Lemma dropdown_value_roundtrip_witness :
  cost_center_row ∈ rows cost_center_table /\
  has_column cost_center_table "Cost Center #" = true /\
  dropdown_value pretty (fun _ => pretty) "nan" cost_center_table "Cost Center #"
    (row_get cost_center_row "Cost Center #") =
  text_default pretty (fun _ => pretty) "nan" (row_get cost_center_row "Cost Center #").
Proof.
  assert (H1 : cost_center_row ∈ rows cost_center_table) by (apply elem_of_cons; by left).
  assert (H2 : has_column cost_center_table "Cost Center #" = true) by reflexivity.
  split; [exact H1|]. split; [exact H2|].
  apply (dropdown_value_roundtrip pretty (fun _ => pretty) "nan" cost_center_table cost_center_row
           "Cost Center #" H1 H2).
  intros _ _. right. vm_compute. reflexivity.
Defined.

Lemma edit_unchanged_text_fields_witness :
  email_matches (rows cost_center_table) (VStr "a@x.com") = [0] /\
  cost_center_row ∈ rows cost_center_table /\
  required_missing (initial_form pretty (fun _ => pretty) "nan" id (fun _ => None)
                      cost_center_table cost_center_row) = false /\
  exists t', edit_submit_fixed cost_center_table (VStr "a@x.com") cost_center_row
               (initial_form pretty (fun _ => pretty) "nan" id (fun _ => None)
                  cost_center_table cost_center_row) = Committed t' /\
    forall c, c ∈ "Preferred Name" :: "Work Email" :: "Personal" :: dropdown_fields ->
      has_column cost_center_table c = true ->
      (notna (row_get cost_center_row c) = true -> row_get cost_center_row c <> VStr "" ->
       py_truthy (row_get cost_center_row c) = true \/
       strip_is_empty (py_str pretty (fun _ => pretty) "nan" (row_get cost_center_row c)) = false) ->
      lookup_cell t' 0 c =
        Some (normalize (VStr (text_default pretty (fun _ => pretty) "nan" (row_get cost_center_row c)))).
Proof.
  assert (H1 : email_matches (rows cost_center_table) (VStr "a@x.com") = [0])
    by (vm_compute; reflexivity).
  assert (H2 : cost_center_row ∈ rows cost_center_table) by (apply elem_of_cons; by left).
  assert (H3 : required_missing (initial_form pretty (fun _ => pretty) "nan" id (fun _ => None)
                 cost_center_table cost_center_row) = false) by (vm_compute; reflexivity).
  split; [exact H1|]. split; [exact H2|]. split; [exact H3|].
  exact (edit_unchanged_text_fields pretty (fun _ => pretty) "nan" id (fun _ => None)
           cost_center_table (VStr "a@x.com") cost_center_row 0 [] H1 H2 H3).
Defined.

Lemma edit_unchanged_fixed_lists_witness :
  email_matches (rows cost_center_table) (VStr "a@x.com") = [0] /\
  required_missing (initial_form pretty (fun _ => pretty) "nan" id (fun _ => None)
                      cost_center_table cost_center_row) = false /\
  exists t', edit_submit_fixed cost_center_table (VStr "a@x.com") cost_center_row
               (initial_form pretty (fun _ => pretty) "nan" id (fun _ => None)
                  cost_center_table cost_center_row) = Committed t' /\
    lookup_cell t' 0 "Employee Type" =
      Some (if bool_decide (text_default pretty (fun _ => pretty) "nan"
                              (row_get cost_center_row "Employee Type") ∈ employee_type_options)
            then normalize (VStr (text_default pretty (fun _ => pretty) "nan"
                                    (row_get cost_center_row "Employee Type")))
            else VNull) /\
    forall c, c ∈ yes_no_fields ->
      lookup_cell t' 0 c =
        Some (if bool_decide (text_default pretty (fun _ => pretty) "nan" (row_get cost_center_row c)
                                ∈ yes_no_options)
              then normalize (VStr (text_default pretty (fun _ => pretty) "nan" (row_get cost_center_row c)))
              else VNull).
Proof.
  assert (H1 : email_matches (rows cost_center_table) (VStr "a@x.com") = [0])
    by (vm_compute; reflexivity).
  assert (H2 : required_missing (initial_form pretty (fun _ => pretty) "nan" id (fun _ => None)
                 cost_center_table cost_center_row) = false) by (vm_compute; reflexivity).
  split; [exact H1|]. split; [exact H2|].
  exact (edit_unchanged_fixed_lists pretty (fun _ => pretty) "nan" id (fun _ => None)
           cost_center_table (VStr "a@x.com") cost_center_row 0 [] H1 H2).
Defined.

Lemma cell_eq_true v w : cell_eq v w = true <-> notna v = true /\ v = w.
Proof.
  unfold cell_eq. destruct v; cbn [notna];
    [split; [discriminate|by intros []]|..]; rewrite bool_decide_eq_true; naive_solver.
Qed.

(** Extra X11: every email the later revision offers in "Select Employee to
    Edit" (the non-null Work Email cells) resolves: the mask finds it,
    the selected employee is the first row holding it, and a submit with
    both required fields filled commits, keeping the row count. *)
Lemma edit_candidates_resolve t e :
  e ∈ edit_candidates t ->
  exists idx rest sel,
    email_matches (rows t) e = idx :: rest /\ select_employee t e = Some sel /\
    rows t !! idx = Some sel /\ row_get sel "Work Email" = e /\
    forall f, required_missing f = false ->
      exists t', edit_submit_fixed t e sel f = Committed t' /\
                 length (rows t') = length (rows t).
Proof.
  unfold edit_candidates. destruct (has_column t "Work Email"); [|intros H; by apply not_elem_of_nil in H].
  rewrite list_elem_of_In, in_map_iff. intros (r & <- & Hr).
  apply List.filter_In in Hr as [Hr Hn]. apply list_elem_of_In, list_elem_of_lookup_1 in Hr as [j Hj].
  assert (Hjm : j ∈ email_matches (rows t) (row_get r "Work Email")).
  { apply email_matches_spec. exists r. split; [done|]. by apply cell_eq_true. }
  destruct (email_matches (rows t) (row_get r "Work Email")) as [|idx rest] eqn:Hm.
  { by apply not_elem_of_nil in Hjm. }
  assert (Hidx : idx ∈ email_matches (rows t) (row_get r "Work Email")) by (rewrite Hm; left).
  apply email_matches_spec in Hidx as (sel & Hsel & Heq). apply cell_eq_true in Heq as [_ Heq].
  exists idx, rest, sel. split; [done|].
  assert (Hs : select_employee t (row_get r "Work Email") = Some sel) by (unfold select_employee; by rewrite Hm).
  split; [done|]. split; [done|]. split; [done|].
  intros f Hf. destruct (edit_fixed_found t _ sel f idx rest Hf Hm) as (t' & Ht' & Hlen & _).
  eauto.
Qed.

Lemma edit_candidates_resolve_witness :
  VStr "a@x.com" ∈ edit_candidates duplicate_table /\
  exists idx rest sel,
    email_matches (rows duplicate_table) (VStr "a@x.com") = idx :: rest /\
    select_employee duplicate_table (VStr "a@x.com") = Some sel /\
    rows duplicate_table !! idx = Some sel /\ row_get sel "Work Email" = VStr "a@x.com" /\
    forall f, required_missing f = false ->
      exists t', edit_submit_fixed duplicate_table (VStr "a@x.com") sel f = Committed t' /\
                 length (rows t') = length (rows duplicate_table).
Proof.
  assert (H : VStr "a@x.com" ∈ edit_candidates duplicate_table)
    by (vm_compute; apply elem_of_cons; by left).
  split; [exact H|]. exact (edit_candidates_resolve duplicate_table (VStr "a@x.com") H).
Defined.

(** Extra X12: in the original revision, editing the employee at position
    [j] whose Work Email is shared with an earlier row writes the edit into
    the earliest row holding that email, and leaves the selected row
    itself unchanged. *)
Lemma edit_orig_first_duplicate t j sel v f :
  rows t !! j = Some sel -> sel !! "Work Email" = Some v -> notna v = true ->
  required_missing f = false ->
  exists i t', target_orig t j sel = i /\ i <= j /\
    (exists r, rows t !! i = Some r /\ row_get r "Work Email" = v) /\
    (forall k r, k < i -> rows t !! k = Some r -> row_get r "Work Email" <> v) /\
    edit_submit_orig t j sel f = Committed t' /\
    (i <> j -> forall c, c ∈ columns t -> lookup_cell t' j c = sel !! c).
Proof.
  intros Hj Hv Hn Hf.
  assert (He : original_email sel = v) by (unfold original_email; by rewrite Hv).
  assert (Hjm : j ∈ email_matches (rows t) v).
  { apply email_matches_spec. exists sel. split; [done|]. apply cell_eq_true.
    unfold row_get. by rewrite Hv. }
  destruct (email_matches (rows t) v) as [|i rest] eqn:Hm; [by apply not_elem_of_nil in Hjm|].
  assert (Ht : target_orig t j sel = i) by (unfold target_orig; by rewrite He, Hm).
  assert (Hmin : forall k, k ∈ email_matches (rows t) v -> i <= k).
  { intros k Hk. rewrite Hm in Hk. apply elem_of_cons in Hk as [->|Hk]; [lia|].
    pose proof (email_matches_first _ _ _ _ _ Hm Hk). lia. }
  assert (Hlt : target_orig t j sel < length (rows t)).
  { rewrite Ht. exact (email_matches_head_lt _ _ _ _ Hm). }
  destruct (edit_orig_found t j sel f Hf Hlt) as (t' & Hs & _ & Hrows).
  exists i, t'. split; [done|]. split; [apply Hmin; by rewrite Hm|]. split.
  { assert (Hi : i ∈ email_matches (rows t) v) by (rewrite Hm; left).
    apply email_matches_spec in Hi as (r & Hr & Hc). apply cell_eq_true in Hc as [_ Hc]. eauto. }
  split.
  { intros k r Hk Hr Hrv. assert (Hkm : k ∈ email_matches (rows t) v).
    { apply email_matches_spec. exists r. split; [done|]. apply cell_eq_true. split; [by rewrite Hrv|done]. }
    apply Hmin in Hkm. lia. }
  split; [done|].
  intros Hij c Hc. destruct (Hrows j sel Hj) as (r2 & Hr2 & Hc2).
  unfold lookup_cell. rewrite Hr2. cbn. rewrite Hc2, Ht, decide_False by congruence.
  rewrite bool_decide_eq_false_2; [done|]. tauto.
Qed.

Lemma edit_orig_first_duplicate_witness :
  rows duplicate_table !! 1 = Some (sample_row "Ann B" "a@x.com" "2") /\
  sample_row "Ann B" "a@x.com" "2" !! "Work Email" = Some (VStr "a@x.com") /\
  notna (VStr "a@x.com") = true /\ required_missing sample_form = false /\
  exists i t', target_orig duplicate_table 1 (sample_row "Ann B" "a@x.com" "2") = i /\ i <= 1 /\
    (exists r, rows duplicate_table !! i = Some r /\ row_get r "Work Email" = VStr "a@x.com") /\
    (forall k r, k < i -> rows duplicate_table !! k = Some r ->
                 row_get r "Work Email" <> VStr "a@x.com") /\
    edit_submit_orig duplicate_table 1 (sample_row "Ann B" "a@x.com" "2") sample_form =
      Committed t' /\
    (i <> 1 -> forall c, c ∈ columns duplicate_table ->
                 lookup_cell t' 1 c = sample_row "Ann B" "a@x.com" "2" !! c).
Proof.
  assert (H1 : rows duplicate_table !! 1 = Some (sample_row "Ann B" "a@x.com" "2")) by reflexivity.
  assert (H2 : sample_row "Ann B" "a@x.com" "2" !! "Work Email" = Some (VStr "a@x.com"))
    by (vm_compute; reflexivity).
  assert (H3 : notna (VStr "a@x.com") = true) by reflexivity.
  assert (H4 : required_missing sample_form = false) by reflexivity.
  split; [exact H1|]. split; [exact H2|]. split; [exact H3|]. split; [exact H4|].
  exact (edit_orig_first_duplicate duplicate_table 1 _ _ sample_form H1 H2 H3 H4).
Defined.

Section Search_lemmas.

Variable num_str : Z -> string.
Variable date_str : bool -> Z -> string.
Variable null_str : string.
Variable contains : string -> string -> bool.

Local Abbreviation employee_data_view := (employee_data_view num_str date_str null_str contains).

(** Extra X14: when the table has none of the eight searched columns, any
    non-blank search term empties the Employee Data table. *)
Lemma employee_data_view_no_search_columns t apply_filters_to_table regions roles
    business_units employee_types search_term :
  (forall c, c ∈ search_columns -> has_column t c = false) ->
  strip_is_empty search_term = false ->
  rows (employee_data_view t apply_filters_to_table regions roles business_units
          employee_types search_term) = [].
Proof.
  intros Hno Hterm. unfold employee_data_view.
  destruct (Nat.eqb (length (rows t)) 0) eqn:E0.
  { apply Nat.eqb_eq, nil_length_inv in E0. done. }
  cbv zeta. unfold search_filter. rewrite Hterm. cbn [rows].
  set (d := if apply_filters_to_table
            then apply_filters_fast t regions roles business_units employee_types else t).
  assert (Hc : columns d = columns t) by (unfold d; by destruct apply_filters_to_table).
  induction (rows d) as [|r rs IH]; cbn [List.filter]; [done|].
  rewrite IH. destruct (existsb _ search_columns) eqn:Ex; [|done].
  apply existsb_exists in Ex as (c & Hin & Hc').
  unfold has_column in Hc'. rewrite Hc in Hc'. fold (has_column t c) in Hc'.
  rewrite (Hno c) in Hc' by (by apply list_elem_of_In). discriminate.
Qed.

End Search_lemmas.

Lemma employee_data_view_no_search_columns_witness :
  (forall c, c ∈ search_columns -> has_column type_only_table c = false) /\
  strip_is_empty "Intern" = false /\
  rows (employee_data_view pretty (fun _ => pretty) "nan" (fun _ _ => true) type_only_table false
          [] [] [] [] "Intern") = [].
Proof.
  assert (H1 : forall c, c ∈ search_columns -> has_column type_only_table c = false).
  { intros c Hc. unfold search_columns in Hc.
    repeat (apply elem_of_cons in Hc as [->|Hc]; [reflexivity|]).
    by apply not_elem_of_nil in Hc. }
  assert (H2 : strip_is_empty "Intern" = false) by reflexivity.
  split; [exact H1|]. split; [exact H2|].
  exact (employee_data_view_no_search_columns pretty (fun _ => pretty) "nan" (fun _ _ => true)
           type_only_table false [] [] [] [] "Intern" H1 H2).
Defined.

Lemma count_recent_some cutoff (vs : list value) :
  Forall (fun v => v = VNull \/ exists d, v = VDate d \/ v = VDateTz d) vs ->
  is_Some (count_recent cutoff vs) <-> forall d, VDateTz d ∉ vs.
Proof.
  induction 1 as [|v vs Hv _ IH]; cbn [count_recent].
  - split; [intros _ d Hd; by apply not_elem_of_nil in Hd|by eexists].
  - setoid_rewrite elem_of_cons.
    destruct Hv as [->|[d [->| ->]]]; cbn [recent_cell].
    + destruct (count_recent cutoff vs) as [m|]; split.
      * intros _ d' [Hd|Hd]; [discriminate|]. revert Hd. apply IH. by eexists.
      * by eexists.
      * intros [? H]; discriminate.
      * intros H. apply IH. intros d' Hd. apply (H d'). by right.
    + destruct (count_recent cutoff vs) as [m|]; split.
      * intros _ d' [Hd|Hd]; [discriminate|]. revert Hd. apply IH. by eexists.
      * by eexists.
      * intros [? H]; discriminate.
      * intros H. apply IH. intros d' Hd. apply (H d'). by right.
    + split; [intros [? H]; discriminate|]. intros H. exfalso. apply (H d). by left.
Qed.

(** Extra X15: after a successful upload in either revision (both convert
    ["Hire Date"] with [pd.to_datetime(..., errors='coerce')]),
    [compute_metrics] returns exactly when the ["Hire Date"] column, if
    there is one, holds no tz-aware timestamp: such a timestamp (from a
    string with a UTC offset) makes the comparison with the tz-naive cutoff
    raise [TypeError]. *)
Lemma upload_metrics_tz date_cols read to_dt name t cutoff :
  "Hire Date" ∈ date_cols ->
  process_uploaded_file date_cols read to_dt name = inl t ->
  (is_Some (compute_metrics_fixed t cutoff) <->
     (has_column t "Hire Date" = true -> forall d, VDateTz d ∉ column_values t "Hire Date")) /\
  (is_Some (compute_metrics_orig t cutoff) <->
     (has_column t "Hire Date" = true -> forall d, VDateTz d ∉ column_values t "Hire Date")).
Proof.
  intros Hin Hp.
  destruct (process_uploaded_file_inl _ _ _ _ _ Hp) as (rd & df & _ & _ & _ & _ & Hall).
  assert (Hr : is_Some (recent_hires t cutoff) <->
     (has_column t "Hire Date" = true -> forall d, VDateTz d ∉ column_values t "Hire Date")).
  { unfold recent_hires. destruct (has_column t "Hire Date") eqn:Hh.
    - rewrite count_recent_some by (apply Hall; done). naive_solver.
    - split; [intros _ H; discriminate|by eexists]. }
  unfold compute_metrics_fixed, compute_metrics_orig. rewrite <- Hr.
  destruct (recent_hires t cutoff); split; split; intros [? H]; try discriminate; by eexists.
Qed.

Lemma upload_metrics_tz_witness :
  process_uploaded_file date_columns_fixed upload_tz_reader upload_tz_to_dt "staff.csv" =
    inl upload_tz_result /\
  compute_metrics_fixed upload_tz_result 0 = None.
Proof.
  assert (Hin : "Hire Date" ∈ date_columns_fixed) by (unfold date_columns_fixed; set_solver).
  assert (Hp : process_uploaded_file date_columns_fixed upload_tz_reader upload_tz_to_dt
                 "staff.csv" = inl upload_tz_result) by (vm_compute; reflexivity).
  split; [exact Hp|].
  destruct (upload_metrics_tz date_columns_fixed upload_tz_reader upload_tz_to_dt "staff.csv"
              upload_tz_result 0 Hin Hp) as [Hf _].
  assert (Hn : ~ is_Some (compute_metrics_fixed upload_tz_result 0)).
  { intros Hs. apply (proj1 Hf Hs (eq_refl true) 19727%Z).
    refine (bool_decide_eq_true_1 _ _). vm_compute. reflexivity. }
  destruct (compute_metrics_fixed upload_tz_result 0); [|reflexivity].
  exfalso. apply Hn. by eexists.
Defined.
